(** * multicloudhub-operator: the ensure / readiness / pull-secret helpers

    A shallow embedding of the reconciler helpers of
    [pkg/controller/multiclusterhub] (the second half of
    [src/pkg/subscription/application_ui.go]): [ensureDeployment],
    [ensureService], [ensureSecret], [ensureChannel], [ensureSubscription],
    [apiReady], [copyPullSecret], [fileExists], [readFileRaw] and
    [ReadComponentVersionFile].

    The Kubernetes client is an interface in the Go code; here it is a record
    of operations over an arbitrary cluster state, and every helper runs in a
    state monad that also records the calls it makes.  Log statements have no
    effect on results or on the cluster and are left out. *)

From Stdlib Require Import ZArith.
From stdpp Require Import base option gmap strings list fin_maps.

Local Open Scope string_scope.
Local Open Scope Z_scope.

(* ===================================================================== *)
(** ** Errors *)
(* ===================================================================== *)

(** [metav1.StatusReason], the part of it the helpers can observe. *)
Inductive StatusReason :=
  | StatusReasonNotFound
  | StatusReasonAlreadyExists
  | StatusReasonConflict
  | StatusReasonForbidden
  | StatusReasonTimeout
  | StatusReasonInternalError
  | StatusReasonUnknown.

(** [syscall.Errno] values that [os.Stat] and [ioutil.ReadFile] report. *)
Inductive Errno := ENOENT | EACCES | EIO | ENOTDIR.

(** A Go [error] value that is not nil.  A nil-able [error] is
    [option error]. *)
Inductive error :=
  | StatusError (reason : StatusReason) (message : string)
  | PathError (op : string) (path : string) (errno : Errno)
  | errorString (s : string).

(** [errors.IsNotFound] of apimachinery: the reason of a status error. *)
Definition IsNotFound (err : option error) : bool :=
  match err with
  | Some (StatusError StatusReasonNotFound _) => true
  | _ => false
  end.

(** [os.IsNotExist]. *)
Definition os_IsNotExist (err : option error) : bool :=
  match err with
  | Some (PathError _ _ ENOENT) => true
  | _ => false
  end.

(** [err != nil]. *)
Definition notNil {A} (x : option A) : bool :=
  match x with Some _ => true | None => false end.

(** [errors.New]. *)
Definition errors_New (s : string) : error := errorString s.

(* ===================================================================== *)
(** ** Kubernetes objects *)
(* ===================================================================== *)

Record GroupVersion := { gvGroup : string; gvVersion : string }.

Record GroupVersionKind := { Group : string; Version : string; Kind : string }.

Record NamespacedName := { nnNamespace : string; nnName : string }.

(** [metav1.ObjectMeta], embedded in every object below. *)
Record ObjectMeta := {
  Name : string;
  Namespace : string;
  UID : string;
  ResourceVersion : string;
  SelfLink : string;
  Labels : gmap string string;
  Annotations : gmap string string
}.

Definition emptyMeta : ObjectMeta :=
  {| Name := ""; Namespace := ""; UID := ""; ResourceVersion := "";
     SelfLink := ""; Labels := ∅; Annotations := ∅ |}.

Definition meta_SetNamespace (ns : string) (o : ObjectMeta) : ObjectMeta :=
  {| Name := Name o; Namespace := ns; UID := UID o;
     ResourceVersion := ResourceVersion o; SelfLink := SelfLink o;
     Labels := Labels o; Annotations := Annotations o |}.

Definition meta_SetSelfLink (l : string) (o : ObjectMeta) : ObjectMeta :=
  {| Name := Name o; Namespace := Namespace o; UID := UID o;
     ResourceVersion := ResourceVersion o; SelfLink := l;
     Labels := Labels o; Annotations := Annotations o |}.

Definition meta_SetResourceVersion (v : string) (o : ObjectMeta) : ObjectMeta :=
  {| Name := Name o; Namespace := Namespace o; UID := UID o;
     ResourceVersion := v; SelfLink := SelfLink o;
     Labels := Labels o; Annotations := Annotations o |}.

Definition meta_SetUID (u : string) (o : ObjectMeta) : ObjectMeta :=
  {| Name := Name o; Namespace := Namespace o; UID := u;
     ResourceVersion := ResourceVersion o; SelfLink := SelfLink o;
     Labels := Labels o; Annotations := Annotations o |}.

Definition meta_SetLabels (l : gmap string string) (o : ObjectMeta) : ObjectMeta :=
  {| Name := Name o; Namespace := Namespace o; UID := UID o;
     ResourceVersion := ResourceVersion o; SelfLink := SelfLink o;
     Labels := l; Annotations := Annotations o |}.

(** [appsv1.Deployment]: the metadata and the fields of the spec the
    operator sets. *)
Record DeploymentSpec := {
  Replicas : Z;
  Images : list string;
  NodeSelector : gmap string string
}.

Record Deployment := { depMeta : ObjectMeta; depSpec : DeploymentSpec }.

Definition emptyDeployment : Deployment :=
  {| depMeta := emptyMeta;
     depSpec := {| Replicas := 0; Images := []; NodeSelector := ∅ |} |}.

(** [corev1.Service]. *)
Record ServiceSpec := { Ports : list Z; Selector : gmap string string }.

Record Service := { svcMeta : ObjectMeta; svcSpec : ServiceSpec }.

Definition emptyService : Service :=
  {| svcMeta := emptyMeta; svcSpec := {| Ports := []; Selector := ∅ |} |}.

(** [corev1.Secret]; the [[]byte] values of [Data] are held as byte
    strings. *)
Record Secret := {
  secMeta : ObjectMeta;
  secType : string;
  Data : gmap string string
}.

Definition emptySecret : Secret :=
  {| secMeta := emptyMeta; secType := ""; Data := ∅ |}.

(** A value of an [unstructured.Unstructured] below the top level: a scalar
    or a map of scalars. *)
Inductive Value :=
  | VString (s : string)
  | VMap (m : gmap string string).

#[global] Instance Value_eq_dec : EqDecision Value.
Proof. solve_decision. Defined.

(** [unstructured.Unstructured]: [apiVersion] and [kind], [metadata], and
    the other top-level fields of its [Object] map. *)
Record Unstructured := {
  uGVK : GroupVersionKind;
  uMeta : ObjectMeta;
  uContent : gmap string Value
}.

Definition emptyUnstructured : Unstructured :=
  {| uGVK := {| Group := ""; Version := ""; Kind := "" |};
     uMeta := emptyMeta; uContent := ∅ |}.

Definition SetGroupVersionKind (gvk : GroupVersionKind) (u : Unstructured)
  : Unstructured :=
  {| uGVK := gvk; uMeta := uMeta u; uContent := uContent u |}.

Definition u_SetLabels (l : gmap string string) (u : Unstructured) : Unstructured :=
  {| uGVK := uGVK u; uMeta := meta_SetLabels l (uMeta u); uContent := uContent u |}.

Definition GetName (u : Unstructured) : string := Name (uMeta u).
Definition GetNamespace (u : Unstructured) : string := Namespace (uMeta u).
Definition GetKind (u : Unstructured) : string := Kind (uGVK u).
Definition GetLabels (u : Unstructured) : gmap string string := Labels (uMeta u).

(** The setters of [metav1.Object] the pull-secret copy uses. *)
Definition SetNamespace (ns : string) (s : Secret) : Secret :=
  {| secMeta := meta_SetNamespace ns (secMeta s); secType := secType s; Data := Data s |}.
Definition SetSelfLink (l : string) (s : Secret) : Secret :=
  {| secMeta := meta_SetSelfLink l (secMeta s); secType := secType s; Data := Data s |}.
Definition SetResourceVersion (v : string) (s : Secret) : Secret :=
  {| secMeta := meta_SetResourceVersion v (secMeta s); secType := secType s; Data := Data s |}.
Definition SetUID (u : string) (s : Secret) : Secret :=
  {| secMeta := meta_SetUID u (secMeta s); secType := secType s; Data := Data s |}.

(** The owner: [operatorsv1beta1.MultiClusterHub]. *)
Record MultiClusterHubSpec := {
  ImagePullSecret : string;
  HubNodeSelector : gmap string string
}.

Record MultiClusterHub := { hubMeta : ObjectMeta; Spec : MultiClusterHubSpec }.

(** [utils.CacheSpec]. *)
Record CacheSpecT := { ImageOverrides : gmap string string }.

(** [runtime.Object]: what the client stores, whatever its Go type. *)
Inductive Object :=
  | ObjDeployment (d : Deployment)
  | ObjService (s : Service)
  | ObjSecret (s : Secret)
  | ObjUnstructured (u : Unstructured).

Definition objectKind (o : Object) : string :=
  match o with
  | ObjDeployment _ => "Deployment"
  | ObjService _ => "Service"
  | ObjSecret _ => "Secret"
  | ObjUnstructured u => Kind (uGVK u)
  end.

Definition objectMeta (o : Object) : ObjectMeta :=
  match o with
  | ObjDeployment d => depMeta d
  | ObjService s => svcMeta s
  | ObjSecret s => secMeta s
  | ObjUnstructured u => uMeta u
  end.

(** The Go interface [runtime.Object], as a class: every object type goes
    to and from the stored form. *)
Class RuntimeObject (T : Type) := {
  toObject : T → Object;
  ofObject : Object → option T
}.

#[global] Instance Deployment_RuntimeObject : RuntimeObject Deployment :=
  {| toObject := ObjDeployment;
     ofObject o := match o with ObjDeployment d => Some d | _ => None end |}.

#[global] Instance Service_RuntimeObject : RuntimeObject Service :=
  {| toObject := ObjService;
     ofObject o := match o with ObjService s => Some s | _ => None end |}.

#[global] Instance Secret_RuntimeObject : RuntimeObject Secret :=
  {| toObject := ObjSecret;
     ofObject o := match o with ObjSecret s => Some s | _ => None end |}.

#[global] Instance Unstructured_RuntimeObject : RuntimeObject Unstructured :=
  {| toObject := ObjUnstructured;
     ofObject o := match o with ObjUnstructured u => Some u | _ => None end |}.

(* ===================================================================== *)
(** ** The client and the reconciler monad *)
(* ===================================================================== *)

(** [client.Client] of controller-runtime over a cluster state [W].  [Get]
    has an out-parameter in Go: it returns the error and the value the
    object holds after the call. *)
Record Client (W : Type) := {
  Get : ∀ T `{RuntimeObject T}, NamespacedName → T → W → (option error * T) * W;
  Create : ∀ T `{RuntimeObject T}, T → W → option error * W;
  Update : ∀ T `{RuntimeObject T}, T → W → option error * W
}.
Arguments Get {W} _ {T _} _ _ _.
Arguments Create {W} _ {T _} _ _.
Arguments Update {W} _ {T _} _ _.

(** One entry of the call log. *)
Inductive Call :=
  | CallGet (kind : string) (key : NamespacedName)
  | CallCreate (o : Object)
  | CallUpdate (o : Object).

Definition isWrite (c : Call) : bool :=
  match c with CallGet _ _ => false | _ => true end.

Definition isCreate (c : Call) : bool :=
  match c with CallCreate _ => true | _ => false end.

Definition isUpdate (c : Call) : bool :=
  match c with CallUpdate _ => true | _ => false end.

(** The state a helper runs in: the cluster and the calls made so far. *)
Record World (W : Type) := { cluster : W; calls : list Call }.
Arguments cluster {W} _.
Arguments calls {W} _.
Arguments Build_World {W} _ _.

Definition M (W A : Type) : Type := World W → A * World W.

Definition ret {W A} (a : A) : M W A := λ w, (a, w).

Definition bind {W A B} (m : M W A) (k : A → M W B) : M W B :=
  λ w, let '(a, w') := m w in k a w'.

Notation "'do' x <- e ; k" := (bind e (λ x, k))
  (at level 10, x pattern, e at level 100, k at level 200).

(** [reconcile.Result]; [RequeueAfter] is a [time.Duration], in
    nanoseconds. *)
Record Result := { Requeue : bool; RequeueAfter : Z }.

Definition emptyResult : Result := {| Requeue := false; RequeueAfter := 0 |}.

Definition time_Second : Z := 1000000000.

(** What every helper returns: a pointer to a [reconcile.Result], nil-able,
    and an [error]. *)
Definition Ret : Type := option Result * option error.

(** The calls a step of the monad adds to the log. *)
Definition issued {W A} (m : M W A) (w : World W) : list Call :=
  drop (length (calls w)) (calls (m w).2).

(** The [ReconcileOutcome] of the spec.  The Go helpers return only the
    result pointer and the error; the outcome is read off that pair and the
    writes the helper issued. *)
Inductive ReconcileOutcome :=
  | Created
  | Updated
  | NoOp
  | Failed (reason : error).

Definition outcome (res : Ret) (log : list Call) : option ReconcileOutcome :=
  match res.2 with
  | Some e => Some (Failed e)
  | None =>
      match List.filter isWrite log with
      | [] => Some NoOp
      | [CallCreate _] => Some Created
      | [CallUpdate _] => Some Updated
      | _ => None
      end
  end.

Definition outcomeOf {W} (step : M W Ret) (w : World W) : option ReconcileOutcome :=
  outcome (step w).1 (issued step w).

(** Two calls in succession: [Created], then [NoOp]. *)
Definition createdThenNoOp {W} (step : M W Ret) (w : World W) : Prop :=
  outcomeOf step w = Some Created ∧ outcomeOf step (step w).2 = Some NoOp.

(** A call that succeeds without a [Create]. *)
Definition skipsCreate {W} (step : M W Ret) (w : World W) : Prop :=
  (step w).1 = (None, None) ∧ List.filter isCreate (issued step w) = [].

(** The result pairing of the helpers: nil with nil, or an empty result with
    an error. *)
Definition paired (res : Ret) : Prop :=
  res = (None, None) ∨ ∃ e, res = (Some emptyResult, Some e).

(** The desired object handed to one of the five ensure helpers. *)
Inductive EnsureOp :=
  | OpDeployment (dep : Deployment)
  | OpService (s : Service)
  | OpSecret (s : Secret)
  | OpChannel (u : Unstructured)
  | OpSubscription (u : Unstructured).

Definition desiredObject (op : EnsureOp) : Object :=
  match op with
  | OpDeployment dep => ObjDeployment dep
  | OpService s => ObjService s
  | OpSecret s => ObjSecret s
  | OpChannel u => ObjUnstructured u
  | OpSubscription u => ObjUnstructured u
  end.

(** The receiver of the helpers, [ReconcileMultiClusterHub]. *)
Record ReconcileMultiClusterHub (W : Type) := {
  client : Client W;
  CacheSpec : CacheSpecT
}.
Arguments client {W} _.
Arguments CacheSpec {W} _.

(** The client calls as steps of the monad; each one is logged. *)
Definition clientGet {W T} `{RuntimeObject T} (c : Client W)
    (key : NamespacedName) (obj : T) : M W (option error * T) :=
  λ w, let '(r, cl) := Get c key obj (cluster w) in
       (r, {| cluster := cl;
              calls := calls w ++ [CallGet (objectKind (toObject obj)) key] |}).

Definition clientCreate {W T} `{RuntimeObject T} (c : Client W) (obj : T)
  : M W (option error) :=
  λ w, let '(r, cl) := Create c obj (cluster w) in
       (r, {| cluster := cl; calls := calls w ++ [CallCreate (toObject obj)] |}).

Definition clientUpdate {W T} `{RuntimeObject T} (c : Client W) (obj : T)
  : M W (option error) :=
  λ w, let '(r, cl) := Update c obj (cluster w) in
       (r, {| cluster := cl; calls := calls w ++ [CallUpdate (toObject obj)] |}).

(* ===================================================================== *)
(** ** The ensure helpers *)
(* ===================================================================== *)

Section Ensure.
Context {W : Type}.

(** Names and validators of the packages [helmrepo], [mcm] and
    [subscription], which the helpers import. A validator returns the
    object to update with and whether an update is needed. *)
Variables HelmRepoName APIServerName ControllerName WebhookName : string.
Variable helmrepo_ValidateDeployment :
  MultiClusterHub → CacheSpecT → Deployment → Deployment * bool.
Variable mcm_ValidateDeployment :
  MultiClusterHub → CacheSpecT → Deployment → Deployment * bool.
Variable subscription_Validate :
  Unstructured → Unstructured → Unstructured * bool.

(** [utils.CoreToUnstructured] and [utils.AddInstallerLabel]. *)
Variable CoreToUnstructured : Secret → Unstructured * option error.
Variable AddInstallerLabel : Unstructured → string → string → Unstructured.

Variable r : ReconcileMultiClusterHub W.

(** The [switch found.Name] of [ensureDeployment]: the validator for a
    deployment of that name, applied; [None] is the [default] case. *)
Definition validateByName (m : MultiClusterHub) (found : Deployment)
  : option (Deployment * bool) :=
  let name := Name (depMeta found) in
  if String.eqb name HelmRepoName then
    Some (helmrepo_ValidateDeployment m (CacheSpec r) found)
  else if String.eqb name APIServerName || String.eqb name ControllerName
          || String.eqb name WebhookName then
    Some (mcm_ValidateDeployment m (CacheSpec r) found)
  else None.

Definition ensureDeployment (m : MultiClusterHub) (dep : Deployment) : M W Ret :=
  (* See if deployment already exists and create if it doesn't *)
  let found := emptyDeployment in
  do (err, found) <- clientGet (client r)
      {| nnName := Name (depMeta dep); nnNamespace := Namespace (hubMeta m) |} found;
  if notNil err && IsNotFound err then
    (* Create the deployment *)
    do err <- clientCreate (client r) dep;
    if notNil err then ret (Some emptyResult, err)
    else ret (None, None)
  else if notNil err then
    (* Error that isn't due to the deployment not existing *)
    ret (Some emptyResult, err)
  else
    (* Validate object based on name *)
    match validateByName m found with
    | None =>
        (* Could not validate deployment; unknown name *)
        ret (None, None)
    | Some (desired, needsUpdate) =>
        if needsUpdate then
          do err <- clientUpdate (client r) desired;
          if notNil err then ret (Some emptyResult, err)
          else ret (None, None)
        else ret (None, None)
    end.

Definition ensureService (m : MultiClusterHub) (s : Service) : M W Ret :=
  let found := emptyService in
  do (err, found) <- clientGet (client r)
      {| nnName := Name (svcMeta s); nnNamespace := Namespace (hubMeta m) |} found;
  if notNil err && IsNotFound err then
    (* Create the service *)
    do err <- clientCreate (client r) s;
    if notNil err then ret (Some emptyResult, err)
    else ret (None, None)
  else if notNil err then
    ret (Some emptyResult, err)
  else ret (None, None).

Definition ensureSecret (m : MultiClusterHub) (s : Secret) : M W Ret :=
  let found := emptySecret in
  do (err, found) <- clientGet (client r)
      {| nnName := Name (secMeta s); nnNamespace := Namespace (hubMeta m) |} found;
  if notNil err && IsNotFound err then
    (* Create the secret *)
    do err <- clientCreate (client r) s;
    if notNil err then ret (Some emptyResult, err)
    else ret (None, None)
  else if notNil err then
    ret (Some emptyResult, err)
  else ret (None, None).

Definition ensureChannel (m : MultiClusterHub) (u : Unstructured) : M W Ret :=
  let found := emptyUnstructured in
  let found := SetGroupVersionKind
    {| Group := "apps.open-cluster-management.io"; Kind := "Channel";
       Version := "v1" |} found in
  do (err, found) <- clientGet (client r)
      {| nnName := GetName u; nnNamespace := Namespace (hubMeta m) |} found;
  if notNil err && IsNotFound err then
    (* Create the Channel *)
    do err <- clientCreate (client r) u;
    if notNil err then ret (Some emptyResult, err)
    else ret (None, None)
  else if notNil err then
    ret (Some emptyResult, err)
  else ret (None, None).

Definition ensureSubscription (m : MultiClusterHub) (u : Unstructured) : M W Ret :=
  let found := emptyUnstructured in
  let found := SetGroupVersionKind
    {| Group := "apps.open-cluster-management.io"; Kind := "Subscription";
       Version := "v1" |} found in
  (* Try to get API group instance *)
  do (err, found) <- clientGet (client r)
      {| nnName := GetName u; nnNamespace := GetNamespace u |} found;
  if notNil err && IsNotFound err then
    (* Create the resource *)
    if negb (String.eqb (UID (hubMeta m)) "") then
      do err <- clientCreate (client r) u;
      if notNil err then ret (Some emptyResult, err)
      else ret (None, None)
    else ret (None, None)
  else if notNil err then
    (* Error that isn't due to the resource not existing *)
    ret (Some emptyResult, err)
  else
    (* Validate object based on type *)
    let '(updated, needsUpdate) := subscription_Validate found u in
    if needsUpdate then
      do err <- clientUpdate (client r) updated;
      if notNil err then ret (Some emptyResult, err)
      else ret (None, None)
    else ret (None, None).

Definition copyPullSecret (m : MultiClusterHub) (newNS : string) : M W Ret :=
  let pullSecret := emptySecret in
  do (err, pullSecret) <- clientGet (client r)
      {| nnName := ImagePullSecret (Spec m); nnNamespace := Namespace (hubMeta m) |}
      pullSecret;
  if notNil err then ret (Some emptyResult, err)
  else
    let pullSecret := SetNamespace newNS pullSecret in
    let pullSecret := SetSelfLink "" pullSecret in
    let pullSecret := SetResourceVersion "" pullSecret in
    let pullSecret := SetUID "" pullSecret in
    let '(unstructuredPullSecret, err) := CoreToUnstructured pullSecret in
    if notNil err then ret (Some emptyResult, err)
    else
      let unstructuredPullSecret :=
        AddInstallerLabel unstructuredPullSecret (Name (hubMeta m))
                          (Namespace (hubMeta m)) in
      do (err, unstructuredPullSecret) <- clientGet (client r)
          {| nnName := GetName unstructuredPullSecret; nnNamespace := newNS |}
          unstructuredPullSecret;
      if notNil err && IsNotFound err then
        do err <- clientCreate (client r) unstructuredPullSecret;
        if notNil err then ret (Some emptyResult, err)
        else ret (None, None)
      else ret (None, None).

(** The five ensure helpers under one name, for the statements that hold
    of each of them. *)
Definition runEnsure (op : EnsureOp) (m : MultiClusterHub) : M W Ret :=
  match op with
  | OpDeployment dep => ensureDeployment m dep
  | OpService s => ensureService m s
  | OpSecret s => ensureSecret m s
  | OpChannel u => ensureChannel m u
  | OpSubscription u => ensureSubscription m u
  end.

(** The key of the first [Get] of a helper. *)
Definition fetchKey (op : EnsureOp) (m : MultiClusterHub) : NamespacedName :=
  match op with
  | OpDeployment dep =>
      {| nnName := Name (depMeta dep); nnNamespace := Namespace (hubMeta m) |}
  | OpService s =>
      {| nnName := Name (svcMeta s); nnNamespace := Namespace (hubMeta m) |}
  | OpSecret s =>
      {| nnName := Name (secMeta s); nnNamespace := Namespace (hubMeta m) |}
  | OpChannel u =>
      {| nnName := GetName u; nnNamespace := Namespace (hubMeta m) |}
  | OpSubscription u =>
      {| nnName := GetName u; nnNamespace := GetNamespace u |}
  end.

(** The [Create] of the desired object of a helper, on a cluster. *)
Definition createDesired (op : EnsureOp) (cl : W) : option error * W :=
  match op with
  | OpDeployment dep => Create (client r) dep cl
  | OpService s => Create (client r) s cl
  | OpSecret s => Create (client r) s cl
  | OpChannel u => Create (client r) u cl
  | OpSubscription u => Create (client r) u cl
  end.

Definition fetchKind (op : EnsureOp) : string :=
  match op with
  | OpDeployment _ => "Deployment"
  | OpService _ => "Service"
  | OpSecret _ => "Secret"
  | OpChannel _ => "Channel"
  | OpSubscription _ => "Subscription"
  end.

(** What the first [Get] of a helper answers on a cluster: the error, and
    the cluster afterwards. *)
Definition fetch (op : EnsureOp) (m : MultiClusterHub) (cl : W)
  : option error * W :=
  match op with
  | OpDeployment _ =>
      let '((err, _), cl') :=
        Get (client r) (fetchKey op m) emptyDeployment cl in (err, cl')
  | OpService _ =>
      let '((err, _), cl') :=
        Get (client r) (fetchKey op m) emptyService cl in (err, cl')
  | OpSecret _ =>
      let '((err, _), cl') :=
        Get (client r) (fetchKey op m) emptySecret cl in (err, cl')
  | OpChannel _ =>
      let '((err, _), cl') :=
        Get (client r) (fetchKey op m)
          (SetGroupVersionKind
             {| Group := "apps.open-cluster-management.io"; Kind := "Channel";
                Version := "v1" |} emptyUnstructured) cl in (err, cl')
  | OpSubscription _ =>
      let '((err, _), cl') :=
        Get (client r) (fetchKey op m)
          (SetGroupVersionKind
             {| Group := "apps.open-cluster-management.io";
                Kind := "Subscription"; Version := "v1" |} emptyUnstructured) cl
      in (err, cl')
  end.

End Ensure.

(* ===================================================================== *)
(** ** The readiness gate *)
(* ===================================================================== *)

Section ApiReady.
(** [*rest.Config] and [*discovery.DiscoveryClient]; a pointer is
    nil-able. *)
Context {RestConfig DiscoveryClient : Type}.

(** [config.GetConfig], [discovery.NewDiscoveryClientForConfig] and
    [discovery.ServerSupportsVersion] of controller-runtime and
    client-go. *)
Variable config_GetConfig : option RestConfig * option error.
Variable discovery_NewDiscoveryClientForConfig :
  option RestConfig → option DiscoveryClient * option error.
Variable discovery_ServerSupportsVersion :
  option DiscoveryClient → GroupVersion → option error.

Definition apiReady (gv : GroupVersion) : Ret :=
  let '(cfg, err) := config_GetConfig in
  if notNil err then (Some emptyResult, err)
  else
    let '(c, err) := discovery_NewDiscoveryClientForConfig cfg in
    if notNil err then (Some emptyResult, err)
    else
      let err := discovery_ServerSupportsVersion c gv in
      if notNil err then
        (* Wait a little and try again *)
        (Some {| Requeue := false; RequeueAfter := time_Second * 10 |}, None)
      else (None, None).

End ApiReady.

(* ===================================================================== *)
(** ** Reading the component version file *)
(* ===================================================================== *)

(** [os.FileInfo], as much as [fileExists] asks of it. *)
Record FileInfo := { fiName : string; fiSize : Z; fiIsDir : bool }.

(** A Go call either returns or panics. *)
Inductive Exec (A : Type) :=
  | Returns (a : A)
  | Panics (msg : string).
Arguments Returns {A} _.
Arguments Panics {A} _.

Definition exec_bind {A B} (m : Exec A) (k : A → Exec B) : Exec B :=
  match m with
  | Returns a => k a
  | Panics msg => Panics msg
  end.

Notation "'call' x <- e ; k" := (exec_bind e (λ x, k))
  (at level 10, x pattern, e at level 100, k at level 200).

Definition nilDereference : string :=
  "runtime error: invalid memory address or nil pointer dereference".

(** [info.IsDir()] on the interface value [os.Stat] returned; the method
    call on a nil interface panics. *)
Definition IsDir (info : option FileInfo) : Exec bool :=
  match info with
  | Some i => Returns (fiIsDir i)
  | None => Panics nilDereference
  end.

Section Files.
(** The file system and the pure path and string functions of the Go
    library. *)
Variable os_Stat : string → option FileInfo * option error.
Variable ioutil_ReadFile : string → string * option error.
Variable os_UserHomeDir : string * option error.
Variable path_Join : list string → string.
Variable filepath_Clean : string → string.
Variable strings_TrimSpace : string → string.

Definition fileExists (path : string) : Exec bool :=
  let '(info, err) := os_Stat path in
  if os_IsNotExist err then Returns false
  else
    call d <- IsDir info;
    Returns (negb d).

(** A nil [[]byte] is the empty string. *)
Definition readFileRaw (path : string) : Exec (string * option error) :=
  call exists_ <- fileExists path;
  if negb exists_ then
    let err := errors_New ("File" +:+ path +:+ "does not exist") in
    Returns ("", Some err)
  else
    let '(data, err) := ioutil_ReadFile (filepath_Clean path) in
    if notNil err then Returns ("", err)
    else Returns (data, None).

Definition ReadComponentVersionFile : Exec (string * option error) :=
  let '(home, err) := os_UserHomeDir in
  if notNil err then Returns ("", err)
  else
    let path := path_Join [home; "COMPONENT_VERSION"] in
    call (data, err) <- readFileRaw path;
    if notNil err then Returns ("", err)
    else Returns (strings_TrimSpace data, None).

End Files.

(* ===================================================================== *)
(** ** A cluster to run the helpers on *)
(* ===================================================================== *)

(** An in-memory cluster in the manner of controller-runtime's fake client:
    objects keyed by kind, namespace and name.  Every call first takes the
    head of a script of faults, and fails with it when there is one; this is
    how a forbidden, timed-out or conflicting call is produced. *)
Module Fake.

Record Cluster := {
  objects : gmap (string * string * string) Object;
  faults : list (option error)
}.

Definition keyOf (o : Object) : string * string * string :=
  (objectKind o, Namespace (objectMeta o), Name (objectMeta o)).

Definition notFound (key : string * string * string) : error :=
  StatusError StatusReasonNotFound (key.1.1 +:+ " " +:+ key.2 +:+ " not found").

Definition alreadyExists (key : string * string * string) : error :=
  StatusError StatusReasonAlreadyExists
              (key.1.1 +:+ " " +:+ key.2 +:+ " already exists").

Definition undecodable : error :=
  StatusError StatusReasonInternalError "cannot decode into the given type".

(** The fault of the next call, and the cluster with the script
    advanced. *)
Definition nextFault (c : Cluster) : option error * Cluster :=
  match faults c with
  | [] => (None, c)
  | f :: rest => (f, {| objects := objects c; faults := rest |})
  end.

Definition get (T : Type) `{RuntimeObject T} (key : NamespacedName) (obj : T)
    (c : Cluster) : (option error * T) * Cluster :=
  let '(fault, c) := nextFault c in
  match fault with
  | Some e => ((Some e, obj), c)
  | None =>
      let k := (objectKind (toObject obj), nnNamespace key, nnName key) in
      match objects c !! k with
      | None => ((Some (notFound k), obj), c)
      | Some o =>
          match ofObject o with
          | Some t => ((None, t), c)
          | None => ((Some undecodable, obj), c)
          end
      end
  end.

Definition create (T : Type) `{RuntimeObject T} (obj : T) (c : Cluster)
  : option error * Cluster :=
  let '(fault, c) := nextFault c in
  match fault with
  | Some e => (Some e, c)
  | None =>
      let k := keyOf (toObject obj) in
      match objects c !! k with
      | Some _ => (Some (alreadyExists k), c)
      | None =>
          (None, {| objects := <[k := toObject obj]> (objects c);
                    faults := faults c |})
      end
  end.

Definition update (T : Type) `{RuntimeObject T} (obj : T) (c : Cluster)
  : option error * Cluster :=
  let '(fault, c) := nextFault c in
  match fault with
  | Some e => (Some e, c)
  | None =>
      let k := keyOf (toObject obj) in
      match objects c !! k with
      | None => (Some (notFound k), c)
      | Some _ =>
          (None, {| objects := <[k := toObject obj]> (objects c);
                    faults := faults c |})
      end
  end.

Definition fakeClient : Client Cluster :=
  {| Get := get; Create := create; Update := update |}.

Definition reconciler : ReconcileMultiClusterHub Cluster :=
  {| client := fakeClient; CacheSpec := {| ImageOverrides := ∅ |} |}.

(** A world over a cluster, with an empty call log. *)
Definition world (objs : list Object) (fs : list (option error)) : World Cluster :=
  {| cluster := {| objects := list_to_map ((λ o, (keyOf o, o)) <$> objs);
                   faults := fs |};
     calls := [] |}.

End Fake.

(* ===================================================================== *)
(** ** The helpers of package [utils] and of client-go *)
(* ===================================================================== *)

(** Modelled from the spec: [utils.CoreToUnstructured] is not among the
    sources.  The spec has the target copy carry the same data payload and
    the metadata of the typed secret; the conversion of a well-formed secret
    does not fail. *)
Definition utils_CoreToUnstructured (s : Secret) : Unstructured * option error :=
  ({| uGVK := {| Group := ""; Version := "v1"; Kind := "Secret" |};
      uMeta := secMeta s;
      uContent := <["type" := VString (secType s)]> {["data" := VMap (Data s)]} |},
   None).

(** Modelled from the spec: [utils.AddInstallerLabel] is not among the
    sources.  The spec has it attach the provenance label, which records the
    owner that caused the copy: its name and its namespace; the other labels
    and the rest of the object stay. *)
Definition utils_AddInstallerLabel (u : Unstructured) (name ns : string)
  : Unstructured :=
  u_SetLabels (<["installer.name" := name]>
               (<["installer.namespace" := ns]> (GetLabels u))) u.

(** The answer of the discovery endpoint to [ServerGroups]: the served
    group versions, or the error of the request. *)
Record DiscoveryEndpoint := {
  ServerGroups : list GroupVersion * option error
}.

#[global] Instance GroupVersion_eq_dec : EqDecision GroupVersion.
Proof. solve_decision. Defined.

(** [discovery.ServerSupportsVersion] of client-go. It is this call that
    asks the discovery endpoint for the server groups: an error of that
    request is returned as it is; a server that lists the version, or lists
    none, supports it; otherwise the version is reported as not
    supported. *)
Definition clientgo_ServerSupportsVersion (c : option DiscoveryEndpoint)
    (requiredGV : GroupVersion) : option error :=
  match c with
  | None => Some (errorString "no discovery client")
  | Some c =>
      let '(groups, err) := ServerGroups c in
      if notNil err then err
      else if bool_decide (requiredGV ∈ groups) then None
      else if bool_decide (groups = []) then None
      else Some (errorString
                   ("server does not support API version " +:+ gvGroup requiredGV
                    +:+ "/" +:+ gvVersion requiredGV))
  end.

(** [discovery.NewDiscoveryClientForConfig] over a discovery endpoint: it
    builds the client from the configuration and sends no request.  The rest
    configuration is the host name, a discovery client is the endpoint it
    talks to. *)
Definition clientgo_NewDiscoveryClientForConfig (endpoint : DiscoveryEndpoint)
    (cfg : option string) : option DiscoveryEndpoint * option error :=
  match cfg with
  | Some _ => (Some endpoint, None)
  | None => (None, Some (errorString "config can not be nil"))
  end.

(* ===================================================================== *)
(** ** Concrete objects and environments *)
(* ===================================================================== *)

Module Example.

Definition hubNamespace : string := "open-cluster-management".

Definition hubWithUID (uid : string) : MultiClusterHub :=
  {| hubMeta := {| Name := "multiclusterhub"; Namespace := hubNamespace;
                   UID := uid; ResourceVersion := "7"; SelfLink := "";
                   Labels := ∅; Annotations := ∅ |};
     Spec := {| ImagePullSecret := "pull-secret"; HubNodeSelector := ∅ |} |}.

(** An owner the API server has given a UID, and one it has not yet. *)
Definition hub : MultiClusterHub := hubWithUID "4f2c-owner".
Definition hubNoUID : MultiClusterHub := hubWithUID "".

Definition metaOf (name uid version : string) : ObjectMeta :=
  {| Name := name; Namespace := hubNamespace; UID := uid;
     ResourceVersion := version; SelfLink := ""; Labels := ∅;
     Annotations := ∅ |}.

(** The image pull secret of the hub, as stored. *)
Definition pullSecret : Secret :=
  {| secMeta := {| Name := "pull-secret"; Namespace := hubNamespace;
                   UID := "91ab-secret"; ResourceVersion := "42";
                   SelfLink := "/api/v1/namespaces/open-cluster-management/secrets/pull-secret";
                   Labels := {[ "app" := "hub" ]}; Annotations := ∅ |};
     secType := "kubernetes.io/dockerconfigjson";
     Data := {[ ".dockerconfigjson" := "e30=" ]} |}.

(** A secret of that name that the namespace of cert-manager already
    holds, with other data. *)
Definition certManagerNamespace : string := "cert-manager".

Definition existingCopy : Unstructured :=
  {| uGVK := {| Group := ""; Version := "v1"; Kind := "Secret" |};
     uMeta := {| Name := "pull-secret"; Namespace := certManagerNamespace;
                 UID := "77fe-copy"; ResourceVersion := "9"; SelfLink := "";
                 Labels := ∅; Annotations := ∅ |};
     uContent := {[ "data" := VMap {[ ".dockerconfigjson" := "b2xk" ]} ]} |}.

(** A desired secret, and a stored one of the same name with other
    data. *)
Definition desiredSecret : Secret :=
  {| secMeta := metaOf "repo-credentials" "" "";
     secType := "Opaque"; Data := {[ "token" := "new" ]} |}.

Definition storedSecret : Secret :=
  {| secMeta := metaOf "repo-credentials" "c0de-secret" "3";
     secType := "Opaque"; Data := {[ "token" := "old" ]} |}.

Definition desiredService : Service :=
  {| svcMeta := metaOf "multiclusterhub-repo" "" "";
     svcSpec := {| Ports := [3000]; Selector := {[ "app" := "repo" ]} |} |}.

Definition channel : Unstructured :=
  {| uGVK := {| Group := "apps.open-cluster-management.io"; Version := "v1";
                Kind := "Channel" |};
     uMeta := metaOf "charts-v1" "" "";
     uContent := {[ "spec" := VMap {[ "type" := "HelmRepo" ]} ]} |}.

Definition subscription : Unstructured :=
  {| uGVK := {| Group := "apps.open-cluster-management.io"; Version := "v1";
                Kind := "Subscription" |};
     uMeta := metaOf "application-chart-sub" "" "";
     uContent := {[ "spec" := VMap {[ "channel" := "charts-v1" ]} ]} |}.

(** The subscription as stored, with another spec. *)
Definition storedSubscription : Unstructured :=
  {| uGVK := uGVK subscription;
     uMeta := metaOf "application-chart-sub" "5ub5" "12";
     uContent := {[ "spec" := VMap {[ "channel" := "charts-v0" ]} ]} |}.

(** Values for the deployment names the helpers take from [helmrepo] and
    [mcm]. *)
Definition repoName : string := "multiclusterhub-repo".
Definition apiServerName : string := "mcm-apiserver".
Definition controllerName : string := "mcm-controller".
Definition webhookName : string := "mcm-webhook".

(** Modelled from the spec: the diff strategies for deployments
    ([helmrepo.ValidateDeployment], [mcm.ValidateDeployment]) are not among
    the sources.  A strategy compares the fields the operator owns, here
    the replica count (3) and the node selector of the hub, and returns
    the observed deployment with those fields replaced. *)
Definition validateDeployment (m : MultiClusterHub) (cache : CacheSpecT)
    (found : Deployment) : Deployment * bool :=
  let desired :=
    {| depMeta := depMeta found;
       depSpec := {| Replicas := 3; Images := Images (depSpec found);
                     NodeSelector := HubNodeSelector (Spec m) |} |} in
  if bool_decide (Replicas (depSpec found) = 3
                  ∧ NodeSelector (depSpec found) = HubNodeSelector (Spec m))
  then (found, false) else (desired, true).

(** Modelled from the spec: the diff strategy for subscriptions
    ([subscription.Validate]) is not among the sources.  It owns the
    [spec] of the subscription and returns the observed object with the
    wanted [spec]. *)
Definition validateSubscription (found want : Unstructured)
  : Unstructured * bool :=
  match uContent want !! "spec" with
  | Some (VMap wanted) =>
      if bool_decide (uContent found !! "spec" = Some (VMap wanted))
      then (found, false)
      else ({| uGVK := uGVK found; uMeta := uMeta found;
               uContent := <["spec" := VMap wanted]> (uContent found) |}, true)
  | _ => (found, false)
  end.

(** The observed deployment of the spec's example: one replica, and an
    annotation nobody in the operator manages. *)
Definition observedDeployment : Deployment :=
  {| depMeta := {| Name := repoName; Namespace := hubNamespace;
                   UID := "d3p1"; ResourceVersion := "5"; SelfLink := "";
                   Labels := ∅; Annotations := {[ "team" := "infra" ]} |};
     depSpec := {| Replicas := 1; Images := ["quay.io/repo:1.0"];
                   NodeSelector := ∅ |} |}.

(** The deployment the operator wants: what the strategy settles on. *)
Definition desiredDeployment : Deployment :=
  {| depMeta := metaOf repoName "" "";
     depSpec := {| Replicas := 3; Images := ["quay.io/repo:1.0"];
                   NodeSelector := ∅ |} |}.

Definition forbidden : error :=
  StatusError StatusReasonForbidden "secrets is forbidden".

Definition timeout : error :=
  StatusError StatusReasonTimeout "the server was unable to return a response in time".

(** The helpers over the fake cluster, with the names and strategies
    above. *)
Definition ensure (op : EnsureOp) (m : MultiClusterHub)
  : M Fake.Cluster Ret :=
  runEnsure repoName apiServerName controllerName webhookName
    validateDeployment validateDeployment validateSubscription
    Fake.reconciler op m.

Definition copy (m : MultiClusterHub) (newNS : string) : M Fake.Cluster Ret :=
  copyPullSecret utils_CoreToUnstructured utils_AddInstallerLabel
    Fake.reconciler m newNS.

(** Discovery endpoints: one that serves the apps group, and one that
    cannot be reached. *)
Definition appsV1 : GroupVersion :=
  {| gvGroup := "apps.open-cluster-management.io"; gvVersion := "v1" |}.

Definition coreV1 : GroupVersion := {| gvGroup := ""; gvVersion := "v1" |}.

Definition servingCore : DiscoveryEndpoint :=
  {| ServerGroups := ([coreV1], None) |}.

Definition unreachable : DiscoveryEndpoint :=
  {| ServerGroups :=
       ([], Some (errorString "dial tcp 10.0.0.1:443: connect: connection refused")) |}.

(** [apiReady] against an endpoint, with a rest configuration at hand. *)
Definition ready (endpoint : DiscoveryEndpoint) (gv : GroupVersion) : Ret :=
  apiReady (Some "https://10.0.0.1:443", None)
           (clientgo_NewDiscoveryClientForConfig endpoint)
           clientgo_ServerSupportsVersion gv.

(** A file system in which the version file cannot be examined: [stat]
    fails with a permission error. *)
Definition versionPath : string := "/root/COMPONENT_VERSION".

Definition statDenied (path : string) : option FileInfo * option error :=
  (None, Some (PathError "stat" path EACCES)).

Definition readDenied (path : string) : string * option error :=
  ("", Some (PathError "open" path EACCES)).

Definition join (parts : list string) : string :=
  match parts with
  | [] => ""
  | p :: ps => fold_left (λ acc q, acc +:+ "/" +:+ q) ps p
  end.

End Example.

(* ===================================================================== *)
(** ** Proof steps shared by the statements below *)
(* ===================================================================== *)

(* ===================================================================== *)
(** ** Further objects, faults and file systems *)
(* ===================================================================== *)

Module Scenario.

Definition conflict : error :=
  StatusError StatusReasonConflict "the object has been modified".

(** A deployment the operator has no validator for. *)
Definition consoleDeployment : Deployment :=
  {| depMeta := Example.metaOf "console" "c0n5" "2";
     depSpec := {| Replicas := 1; Images := ["quay.io/console:2.0"];
                   NodeSelector := ∅ |} |}.

(** A desired secret in another namespace than the owner's. *)
Definition strayNamespace : string := "kube-system".

Definition straySecret : Secret :=
  {| secMeta := {| Name := "repo-credentials"; Namespace := strayNamespace;
                   UID := ""; ResourceVersion := ""; SelfLink := "";
                   Labels := ∅; Annotations := ∅ |};
     secType := "Opaque"; Data := {[ "token" := "new" ]} |}.

(** A conversion that fails. *)
Definition brokenConversion (s : Secret) : Unstructured * option error :=
  (emptyUnstructured, Some (errorString "unrecognized type")).

Definition copyWith (convert : Secret → Unstructured * option error)
    (m : MultiClusterHub) (newNS : string) : M Fake.Cluster Ret :=
  copyPullSecret convert utils_AddInstallerLabel Fake.reconciler m newNS.

(** File systems: one without the version file, one where the path is a
    directory, and one with the file in place. *)
Definition statMissing (path : string) : option FileInfo * option error :=
  (None, Some (PathError "stat" path ENOENT)).

Definition statDirectory (path : string) : option FileInfo * option error :=
  (Some {| fiName := "COMPONENT_VERSION"; fiSize := 4096; fiIsDir := true |}, None).

Definition statRegular (path : string) : option FileInfo * option error :=
  (Some {| fiName := "COMPONENT_VERSION"; fiSize := 7; fiIsDir := false |}, None).

Definition newline : string := String (Ascii.ascii_of_nat 10) "".

Definition readVersionFile (path : string) : string * option error :=
  (" 1.0.0" +:+ newline, None).

Definition readFails (path : string) : string * option error :=
  ("", Some (PathError "read" path EIO)).

Definition noHome : string * option error :=
  ("", Some (errorString "$HOME is not defined")).

(** [strings.TrimSpace] on ASCII text: leading and trailing blanks, tabs,
    line feeds and carriage returns go. *)
Definition isSpace (c : Ascii.ascii) : bool :=
  let n := Ascii.nat_of_ascii c in
  (n =? 32)%nat || (n =? 9)%nat || (n =? 10)%nat || (n =? 13)%nat.

Fixpoint trimLeft (s : string) : string :=
  match s with
  | String c rest => if isSpace c then trimLeft rest else s
  | EmptyString => EmptyString
  end.

Definition trimSpace (s : string) : string :=
  String.rev (trimLeft (String.rev (trimLeft s))).

End Scenario.

(* ===================================================================== *)
(** ** Conditions the statements below are made under *)
(* ===================================================================== *)

(** The desired object is stored under the key the helper fetches it by:
    its kind is the kind fetched, and so are its namespace and name. *)
Definition aligned (op : EnsureOp) (m : MultiClusterHub) : Prop :=
  Fake.keyOf (desiredObject op)
  = (fetchKind op, nnNamespace (fetchKey op m), nnName (fetchKey op m)).

(** The owner has a UID where the helper asks for one. *)
Definition ownerIdentified (op : EnsureOp) (m : MultiClusterHub) : Prop :=
  match op with
  | OpSubscription _ => UID (hubMeta m) ≠ ""
  | _ => True
  end.

(** The validators ask for no update of the desired object itself. *)
Definition settled (validated : Deployment → option (Deployment * bool))
    (subscription_Validate : Unstructured → Unstructured → Unstructured * bool)
    (op : EnsureOp) : Prop :=
  match op with
  | OpDeployment dep =>
      match validated dep with
      | Some (_, true) => False
      | _ => True
      end
  | OpSubscription u => (subscription_Validate u u).2 = false
  | _ => True
  end.

(** A failure of the readiness probe itself, here of the request to the
    discovery endpoint, comes back as an error and an empty result. *)
Definition surfacesProbeFailure (endpoint : DiscoveryEndpoint)
    (gv : GroupVersion) : Prop :=
  notNil (ServerGroups endpoint).2 = true →
  ∃ e, Example.ready endpoint gv = (Some emptyResult, Some e).

Arguments IsNotFound : simpl never.

Ltac unfold_helpers :=
  unfold runEnsure, ensureDeployment, ensureService, ensureSecret,
    ensureChannel, ensureSubscription, copyPullSecret, bind, clientGet,
    clientCreate, clientUpdate, ret.

Ltac split_call :=
  match goal with
  | |- context [@Get ?W ?c ?T ?I ?k ?o ?cl] =>
      let E := fresh "EGet" in
      destruct (@Get W c T I k o cl) as [[? ?] ?] eqn:E
  | |- context [@Create ?W ?c ?T ?I ?o ?cl] =>
      let E := fresh "ECreate" in
      destruct (@Create W c T I o cl) as [? ?] eqn:E
  | |- context [@Update ?W ?c ?T ?I ?o ?cl] =>
      let E := fresh "EUpdate" in
      destruct (@Update W c T I o cl) as [? ?] eqn:E
  end.

Ltac split_error :=
  match goal with
  | |- context [notNil ?e] => is_var e; destruct e as [?|]; simpl notNil
  end.

Section EnsureProperties.
Context {W : Type}.
Variables HelmRepoName APIServerName ControllerName WebhookName : string.
Variable helmrepo_ValidateDeployment :
  MultiClusterHub → CacheSpecT → Deployment → Deployment * bool.
Variable mcm_ValidateDeployment :
  MultiClusterHub → CacheSpecT → Deployment → Deployment * bool.
Variable subscription_Validate :
  Unstructured → Unstructured → Unstructured * bool.
Variable CoreToUnstructured : Secret → Unstructured * option error.
Variable AddInstallerLabel : Unstructured → string → string → Unstructured.
Variable r : ReconcileMultiClusterHub W.

Local Abbreviation run := (runEnsure HelmRepoName APIServerName ControllerName
  WebhookName helmrepo_ValidateDeployment mcm_ValidateDeployment
  subscription_Validate r).
Local Abbreviation validated := (validateByName HelmRepoName APIServerName
  ControllerName WebhookName helmrepo_ValidateDeployment
  mcm_ValidateDeployment r).
Local Abbreviation fetched := (fetch r).
Local Abbreviation fetchCall op m := (CallGet (fetchKind op) (fetchKey op m)).

Lemma issued_app {A} (m : M W A) (w : World W) a cl l :
  m w = (a, {| cluster := cl; calls := calls w ++ l |}) → issued m w = l.
Proof.
  intros E. unfold issued. rewrite E. simpl. apply drop_app_length.
Qed.

Lemma IsNotFound_notNil err : IsNotFound err = true → notNil err = true.
Proof. destruct err; [reflexivity | discriminate]. Qed.

(** A fetch error other than not-found ends the helper at once. *)
Lemma runEnsure_fetch_error op m w e :
  (fetched op m (cluster w)).1 = Some e →
  IsNotFound (Some e) = false →
  run op m w =
    ((Some emptyResult, Some e),
     {| cluster := (fetched op m (cluster w)).2;
        calls := calls w ++ [fetchCall op m] |}).
Proof.
  intros Hf Hn.
  destruct op; simpl in Hf |- *; unfold_helpers; simpl;
    split_call; simpl in Hf; subst; simpl notNil; rewrite Hn; reflexivity.
Qed.

(** Absent, and the owner has a UID where the helper asks for one: the
    desired object is created. *)
Lemma runEnsure_absent op m w :
  IsNotFound (fetched op m (cluster w)).1 = true →
  match op with OpSubscription _ => UID (hubMeta m) ≠ "" | _ => True end →
  run op m w =
    (let err := (createDesired r op (fetched op m (cluster w)).2).1 in
     if notNil err then (Some emptyResult, err) else (None, None),
     {| cluster := (createDesired r op (fetched op m (cluster w)).2).2;
        calls := calls w ++ [fetchCall op m; CallCreate (desiredObject op)] |}).
Proof.
  intros Hf Hu.
  destruct op; simpl in Hf |- *; unfold_helpers; simpl;
    split_call; simpl in Hf; rewrite Hf, (IsNotFound_notNil _ Hf); simpl;
    try (destruct (String.eqb_spec (UID (hubMeta m)) ""); [contradiction|]; simpl);
    split_call; simpl; rewrite <- app_assoc; simpl;
    split_error; reflexivity.
Qed.

(** Absent, and the owner of a subscription has no UID: nothing is
    created. *)
Lemma ensureSubscription_no_owner_uid u m w :
  IsNotFound (fetched (OpSubscription u) m (cluster w)).1 = true →
  UID (hubMeta m) = "" →
  run (OpSubscription u) m w =
    ((None, None),
     {| cluster := (fetched (OpSubscription u) m (cluster w)).2;
        calls := calls w ++ [fetchCall (OpSubscription u) m] |}).
Proof.
  intros Hf Hu. simpl in Hf |- *. unfold_helpers. simpl.
  split_call. simpl in Hf. rewrite Hf, (IsNotFound_notNil _ Hf), Hu. reflexivity.
Qed.

(** Present: the helpers for services, secrets and channels stop there. *)
Lemma runEnsure_present_unvalidated op m w :
  match op with OpService _ | OpSecret _ | OpChannel _ => True | _ => False end →
  (fetched op m (cluster w)).1 = None →
  run op m w =
    ((None, None),
     {| cluster := (fetched op m (cluster w)).2;
        calls := calls w ++ [fetchCall op m] |}).
Proof.
  intros Hop Hf.
  destruct op; try contradiction; simpl in Hf |- *; unfold_helpers; simpl;
    split_call; simpl in Hf; subst; reflexivity.
Qed.

(** Present: the deployment goes through the validator of its name. *)
Lemma ensureDeployment_present dep m w found cl1 :
  Get (client r) (fetchKey (OpDeployment dep) m) emptyDeployment (cluster w)
    = ((None, found), cl1) →
  run (OpDeployment dep) m w =
    match validated m found with
    | Some (desired, true) =>
        (let err := (Update (client r) desired cl1).1 in
         if notNil err then (Some emptyResult, err) else (None, None),
         {| cluster := (Update (client r) desired cl1).2;
            calls := calls w ++ [fetchCall (OpDeployment dep) m;
                                 CallUpdate (ObjDeployment desired)] |})
    | _ => ((None, None),
            {| cluster := cl1;
               calls := calls w ++ [fetchCall (OpDeployment dep) m] |})
    end.
Proof.
  intros Hg. simpl in Hg |- *. unfold_helpers. simpl. rewrite Hg. simpl.
  destruct (validated m found) as [[desired [|]]|]; try reflexivity.
  simpl. split_call. simpl. rewrite <- app_assoc. simpl. split_error; reflexivity.
Qed.

(** Present: the subscription goes through [subscription.Validate]. *)
Lemma ensureSubscription_present u m w found cl1 :
  Get (client r) (fetchKey (OpSubscription u) m)
      (SetGroupVersionKind
         {| Group := "apps.open-cluster-management.io"; Kind := "Subscription";
            Version := "v1" |} emptyUnstructured) (cluster w)
    = ((None, found), cl1) →
  run (OpSubscription u) m w =
    match subscription_Validate found u with
    | (updated, true) =>
        (let err := (Update (client r) updated cl1).1 in
         if notNil err then (Some emptyResult, err) else (None, None),
         {| cluster := (Update (client r) updated cl1).2;
            calls := calls w ++ [fetchCall (OpSubscription u) m;
                                 CallUpdate (ObjUnstructured updated)] |})
    | _ => ((None, None),
            {| cluster := cl1;
               calls := calls w ++ [fetchCall (OpSubscription u) m] |})
    end.
Proof.
  intros Hg. simpl in Hg |- *. unfold_helpers. simpl. rewrite Hg. simpl.
  destruct (subscription_Validate found u) as [updated [|]]; try reflexivity.
  simpl. split_call. simpl. rewrite <- app_assoc. simpl. split_error; reflexivity.
Qed.

Lemma fetched_None_Get op m cl :
  (fetched op m cl).1 = None →
  match op with
  | OpDeployment _ =>
      ∃ found, Get (client r) (fetchKey op m) emptyDeployment cl
               = ((None, found), (fetched op m cl).2)
  | OpSubscription _ =>
      ∃ found, Get (client r) (fetchKey op m)
                 (SetGroupVersionKind
                    {| Group := "apps.open-cluster-management.io";
                       Kind := "Subscription"; Version := "v1" |}
                    emptyUnstructured) cl
               = ((None, found), (fetched op m cl).2)
  | _ => True
  end.
Proof.
  destruct op; simpl; try done;
    split_call; simpl; intros ->; eauto.
Qed.

(** The calls of a helper, whatever the cluster answers, when the first
    fetch did not say not-found: the fetch, and at most an update. *)
Lemma runEnsure_not_absent_calls op m w :
  IsNotFound (fetched op m (cluster w)).1 = false →
  issued (run op m) w = [fetchCall op m]
  ∨ ∃ o, issued (run op m) w = [fetchCall op m; CallUpdate o].
Proof.
  intros Hn.
  destruct ((fetched op m (cluster w)).1) as [e|] eqn:Hf.
  - left. eapply issued_app, runEnsure_fetch_error; eauto.
  - pose proof (fetched_None_Get op m (cluster w) Hf) as Hg.
    destruct op.
    + destruct Hg as [found Hg].
      pose proof (ensureDeployment_present dep m w found _ Hg) as E.
      destruct (validated m found) as [[desired [|]]|];
        [right; eexists | left | left]; eapply issued_app; exact E.
    + left. eapply issued_app, runEnsure_present_unvalidated; eauto.
    + left. eapply issued_app, runEnsure_present_unvalidated; eauto.
    + left. eapply issued_app, runEnsure_present_unvalidated; eauto.
    + destruct Hg as [found Hg].
      pose proof (ensureSubscription_present u m w found _ Hg) as E.
      destruct (subscription_Validate found u) as [updated [|]];
        [right; eexists | left]; eapply issued_app; exact E.
Qed.

(** C1. Each of the five ensure helpers attempts a create only when its
    first fetch answered not-found: when the fetch did not, no create is
    among the calls it issues; and when the fetch failed with any other
    error, the helper returns the empty result with that very error and
    has issued the fetch alone, neither a create nor an update. *)
Theorem ensure_fetch_error_surfaced op m w :
  IsNotFound (fetched op m (cluster w)).1 = false →
  (∀ o, CallCreate o ∉ issued (run op m) w)
  ∧ (∀ e, (fetched op m (cluster w)).1 = Some e →
          (run op m w).1 = (Some emptyResult, Some e)
          ∧ issued (run op m) w = [fetchCall op m]).
Proof.
  intros Hn. split.
  - intros o Hin.
  destruct (runEnsure_not_absent_calls op m w Hn) as [E|[o' E]];
    rewrite E in Hin;
    repeat (apply elem_of_cons in Hin as [Hin|Hin]; [discriminate Hin|]);
    by apply elem_of_nil in Hin.
  - intros e Hf.
    assert (Hne : IsNotFound (Some e) = false) by (rewrite <- Hf; exact Hn).
    pose proof (runEnsure_fetch_error op m w e Hf Hne) as E.
    split; [rewrite E; reflexivity | eapply issued_app; exact E].
Qed.

(** C2, as the code has it. With the first fetch answering not-found,
    [ensureSubscription] is the one helper that looks at the owner's UID:
    when it is empty it skips the create and returns nil and nil, having
    called the client for the fetch alone; when it is not, it creates.  The
    other four helpers call the create of the desired object whatever the
    owner's UID is.  Where a helper creates, its result is the one the
    create decides and the cluster is as the create left it. *)
Theorem create_skipped_for_subscription_only op m w :
  IsNotFound (fetched op m (cluster w)).1 = true →
  let creating :=
    (let err := (createDesired r op (fetched op m (cluster w)).2).1 in
     if notNil err then (Some emptyResult, err) else (None, None),
     {| cluster := (createDesired r op (fetched op m (cluster w)).2).2;
        calls := calls w ++ [fetchCall op m; CallCreate (desiredObject op)] |}) in
  match op with
  | OpSubscription _ =>
      (UID (hubMeta m) = "" →
       skipsCreate (run op m) w
       ∧ run op m w
         = ((None, None),
            {| cluster := (fetched op m (cluster w)).2;
               calls := calls w ++ [fetchCall op m] |}))
      ∧ (UID (hubMeta m) ≠ "" → run op m w = creating)
  | _ =>
      run op m w = creating
      ∧ List.filter isCreate (issued (run op m) w) = [CallCreate (desiredObject op)]
  end.
Proof.
  intros Hf creating.
  destruct op;
    try (pose proof (runEnsure_absent _ m w Hf I) as E;
         split; [exact E | rewrite (issued_app _ _ _ _ _ E); reflexivity]).
  split.
  - intros Hu.
    pose proof (ensureSubscription_no_owner_uid u m w Hf Hu) as E.
    split; [|exact E].
    unfold skipsCreate. rewrite (issued_app _ _ _ _ _ E), E. done.
  - intros Hu. exact (runEnsure_absent (OpSubscription u) m w Hf Hu).
Qed.


Local Abbreviation copy := (copyPullSecret CoreToUnstructured AddInstallerLabel r).
Local Abbreviation sourceKey m :=
  {| nnName := ImagePullSecret (Spec m); nnNamespace := Namespace (hubMeta m) |}.
Local Abbreviation stripped newNS s :=
  (SetUID "" (SetResourceVersion "" (SetSelfLink "" (SetNamespace newNS s)))).

(** What [copyPullSecret] does once the source is read and converted, by
    the answer of the fetch in the target namespace. *)
Lemma copyPullSecret_target m newNS w src cl1 u err obj cl2 :
  Get (client r) (sourceKey m) emptySecret (cluster w) = ((None, src), cl1) →
  CoreToUnstructured (stripped newNS src) = (u, None) →
  Get (client r)
      {| nnName := GetName (AddInstallerLabel u (Name (hubMeta m))
                              (Namespace (hubMeta m)));
         nnNamespace := newNS |}
      (AddInstallerLabel u (Name (hubMeta m)) (Namespace (hubMeta m))) cl1
    = ((err, obj), cl2) →
  let target := AddInstallerLabel u (Name (hubMeta m)) (Namespace (hubMeta m)) in
  let reads := [CallGet "Secret" (sourceKey m);
                CallGet (GetKind target)
                        {| nnName := GetName target; nnNamespace := newNS |}] in
  copy m newNS w =
    if IsNotFound err then
      (let cerr := (Create (client r) obj cl2).1 in
       if notNil cerr then (Some emptyResult, cerr) else (None, None),
       {| cluster := (Create (client r) obj cl2).2;
          calls := calls w ++ reads ++ [CallCreate (ObjUnstructured obj)] |})
    else ((None, None), {| cluster := cl2; calls := calls w ++ reads |}).
Proof.
  intros Hs Hc Ht. simpl. unfold_helpers. simpl.
  rewrite Hs. simpl. rewrite Hc. simpl. rewrite Ht. simpl.
  rewrite <- app_assoc. simpl.
  destruct err as [e|]; simpl; [|reflexivity].
  destruct (IsNotFound (Some e)); [|reflexivity].
  simpl. split_call. simpl. rewrite <- app_assoc. simpl. split_error; reflexivity.
Qed.

(** A fetch in the target namespace that fails with anything but not-found
    is not looked at: the call returns nil and nil, and writes nothing. *)
Lemma copyPullSecret_target_error_dropped m newNS w src cl1 u e obj cl2 :
  Get (client r) (sourceKey m) emptySecret (cluster w) = ((None, src), cl1) →
  CoreToUnstructured (stripped newNS src) = (u, None) →
  Get (client r)
      {| nnName := GetName (AddInstallerLabel u (Name (hubMeta m))
                              (Namespace (hubMeta m)));
         nnNamespace := newNS |}
      (AddInstallerLabel u (Name (hubMeta m)) (Namespace (hubMeta m))) cl1
    = ((Some e, obj), cl2) →
  IsNotFound (Some e) = false →
  (copy m newNS w).1 = (None, None)
  ∧ List.filter isWrite (issued (copy m newNS) w) = [].
Proof.
  intros Hs Hc Ht Hn.
  pose proof (copyPullSecret_target m newNS w src cl1 u _ _ _ Hs Hc Ht) as E.
  cbv zeta in E. rewrite Hn in E.
  rewrite (issued_app _ _ _ _ _ E), E. done.
Qed.

(** C5. With the source secret read and converted, [copyPullSecret] on a
    target namespace that already holds a secret of that name issues no
    write, returns nil and nil (the outcome is [NoOp]) and leaves the
    cluster as the two reads left it; on a target namespace where the
    fetch answers not-found it calls the client's create once, for the
    copy: that is its one write, the cluster is as that create left it, the
    result is the one that create decides, and the outcome is [Created]
    when the create succeeds. *)
Theorem copyPullSecret_one_shot m newNS w src cl1 u :
  Get (client r) (sourceKey m) emptySecret (cluster w) = ((None, src), cl1) →
  CoreToUnstructured (stripped newNS src) = (u, None) →
  let target := AddInstallerLabel u (Name (hubMeta m)) (Namespace (hubMeta m)) in
  let key := {| nnName := GetName target; nnNamespace := newNS |} in
  let reads := [CallGet "Secret" (sourceKey m); CallGet (GetKind target) key] in
  (∀ existing cl2,
      Get (client r) key target cl1 = ((None, existing), cl2) →
      (copy m newNS w).1 = (None, None)
      ∧ outcomeOf (copy m newNS) w = Some NoOp
      ∧ List.filter isWrite (issued (copy m newNS) w) = []
      ∧ cluster (copy m newNS w).2 = cl2
      ∧ issued (copy m newNS) w = reads)
  ∧ (∀ e obj cl2,
      Get (client r) key target cl1 = ((Some e, obj), cl2) →
      IsNotFound (Some e) = true →
      copyPullSecret CoreToUnstructured AddInstallerLabel r m newNS w
      = (let cerr := (Create (client r) obj cl2).1 in
         if notNil cerr then (Some emptyResult, cerr) else (None, None),
         {| cluster := (Create (client r) obj cl2).2;
            calls := calls w ++ reads ++ [CallCreate (ObjUnstructured obj)] |})
      ∧ List.filter isWrite (issued (copy m newNS) w)
        = [CallCreate (ObjUnstructured obj)]
      ∧ ((Create (client r) obj cl2).1 = None →
         outcomeOf (copy m newNS) w = Some Created)).
Proof.
  intros Hs Hc target key reads. split.
  - intros existing cl2 Ht.
    pose proof (copyPullSecret_target m newNS w src cl1 u _ _ _ Hs Hc Ht) as E.
    simpl in E. pose proof (issued_app _ _ _ _ _ E) as Hi.
    unfold outcomeOf. rewrite Hi, E. done.
  - intros e obj cl2 Ht Hn.
    pose proof (copyPullSecret_target m newNS w src cl1 u _ _ _ Hs Hc Ht) as E.
    cbv zeta in E. rewrite Hn in E.
    pose proof (issued_app _ _ _ _ _ E) as Hi.
    split; [exact E|]. split; [rewrite Hi; reflexivity|].
    intros Hok. unfold outcomeOf. rewrite Hi, E, Hok. reflexivity.
Qed.

Lemma paired_nil : paired (None, None).
Proof. by left. Qed.

Lemma paired_error e : paired (Some emptyResult, Some e).
Proof. right. by exists e. Qed.

Lemma paired_after_write (err : option error) :
  paired (if notNil err then (Some emptyResult, err) else (None, None)).
Proof. destruct err; [apply paired_error | apply paired_nil]. Qed.

Lemma runEnsure_paired op m w : paired (run op m w).1.
Proof.
  destruct (IsNotFound (fetched op m (cluster w)).1) eqn:Hn.
  - destruct op;
      try (rewrite runEnsure_absent by done; apply paired_after_write).
    destruct (decide (UID (hubMeta m) = "")) as [Hu|Hu].
    + rewrite (ensureSubscription_no_owner_uid u m w Hn Hu). apply paired_nil.
    + rewrite runEnsure_absent by done. apply paired_after_write.
  - destruct ((fetched op m (cluster w)).1) as [e|] eqn:Hf.
    + rewrite (runEnsure_fetch_error op m w e Hf Hn). apply paired_error.
    + pose proof (fetched_None_Get op m (cluster w) Hf) as Hg.
      destruct op.
      * destruct Hg as [found Hg].
        rewrite (ensureDeployment_present dep m w found _ Hg).
        destruct (validated m found) as [[desired [|]]|];
          [apply paired_after_write | apply paired_nil | apply paired_nil].
      * rewrite runEnsure_present_unvalidated by done. apply paired_nil.
      * rewrite runEnsure_present_unvalidated by done. apply paired_nil.
      * rewrite runEnsure_present_unvalidated by done. apply paired_nil.
      * destruct Hg as [found Hg].
        rewrite (ensureSubscription_present u m w found _ Hg).
        destruct (subscription_Validate found u) as [updated [|]];
          [apply paired_after_write | apply paired_nil].
Qed.

Lemma copyPullSecret_paired m newNS w : paired (copy m newNS w).1.
Proof.
  unfold_helpers. simpl. split_call. simpl.
  split_error; [apply paired_error|].
  destruct (CoreToUnstructured _) as [u cerr]. simpl.
  destruct cerr as [e|]; simpl; [apply paired_error|].
  split_call. simpl.
  destruct (notNil _ && IsNotFound _); [|apply paired_nil].
  split_call. simpl. split_error; [apply paired_error | apply paired_nil].
Qed.

End EnsureProperties.

(* ===================================================================== *)
(** ** The pull-secret copy with the helpers of [utils] *)
(* ===================================================================== *)

Section TargetCopy.
Context {W : Type}.
Variable r : ReconcileMultiClusterHub W.

Local Abbreviation copy :=
  (copyPullSecret utils_CoreToUnstructured utils_AddInstallerLabel r).
Local Abbreviation stripped newNS s :=
  (SetUID "" (SetResourceVersion "" (SetSelfLink "" (SetNamespace newNS s)))).
Local Abbreviation targetOf m newNS src :=
  (utils_AddInstallerLabel (utils_CoreToUnstructured (stripped newNS src)).1
     (Name (hubMeta m)) (Namespace (hubMeta m))).

(** C6. In a target namespace where the fetch answers not-found (the
    client leaving the object it was handed as it was), [copyPullSecret]
    calls the client's create with the copy, and the cluster and the result
    are those of that create.  The copy is the source secret with the
    target namespace set, resource version, self-link and UID cleared, the
    installer label for the owner's name and namespace attached, and the
    name, type and data of the source. *)
Theorem copyPullSecret_target_copy m newNS w src cl1 e cl2 :
  Get (client r)
      {| nnName := ImagePullSecret (Spec m); nnNamespace := Namespace (hubMeta m) |}
      emptySecret (cluster w) = ((None, src), cl1) →
  Get (client r)
      {| nnName := GetName (targetOf m newNS src); nnNamespace := newNS |}
      (targetOf m newNS src) cl1 = ((Some e, targetOf m newNS src), cl2) →
  IsNotFound (Some e) = true →
  let created := targetOf m newNS src in
    copyPullSecret utils_CoreToUnstructured utils_AddInstallerLabel r m newNS w
    = (let cerr := (Create (client r) created cl2).1 in
       if notNil cerr then (Some emptyResult, cerr) else (None, None),
       {| cluster := (Create (client r) created cl2).2;
          calls := calls w
                   ++ [CallGet "Secret"
                         {| nnName := ImagePullSecret (Spec m);
                            nnNamespace := Namespace (hubMeta m) |};
                       CallGet "Secret"
                         {| nnName := Name (secMeta src); nnNamespace := newNS |};
                       CallCreate (ObjUnstructured created)] |})
    ∧ List.filter isWrite (issued (copy m newNS) w)
      = [CallCreate (ObjUnstructured created)]
    ∧ Namespace (uMeta created) = newNS
    ∧ ResourceVersion (uMeta created) = ""
    ∧ SelfLink (uMeta created) = ""
    ∧ UID (uMeta created) = ""
    ∧ Name (uMeta created) = Name (secMeta src)
    ∧ GetLabels created !! "installer.name" = Some (Name (hubMeta m))
    ∧ GetLabels created !! "installer.namespace" = Some (Namespace (hubMeta m))
    ∧ uContent created !! "data" = Some (VMap (Data src))
    ∧ uContent created !! "type" = Some (VString (secType src)).
Proof.
  intros Hs Ht Hn created.
  pose proof (copyPullSecret_target utils_CoreToUnstructured
                utils_AddInstallerLabel r m newNS w src cl1 _ _ _ _
                Hs eq_refl Ht) as E.
  cbv zeta in E. rewrite Hn in E.
  split; [exact E|]. split.
  - rewrite (issued_app _ _ _ _ _ E). reflexivity.
  - subst created. unfold utils_AddInstallerLabel, GetLabels. simpl.
    repeat split; try reflexivity;
      repeat (rewrite lookup_insert_ne by done); apply lookup_insert_eq.
Qed.

End TargetCopy.

(* ===================================================================== *)
(** ** Two calls in succession, on the in-memory cluster *)
(* ===================================================================== *)

Section Twice.
Variables HelmRepoName APIServerName ControllerName WebhookName : string.
Variable helmrepo_ValidateDeployment :
  MultiClusterHub → CacheSpecT → Deployment → Deployment * bool.
Variable mcm_ValidateDeployment :
  MultiClusterHub → CacheSpecT → Deployment → Deployment * bool.
Variable subscription_Validate :
  Unstructured → Unstructured → Unstructured * bool.
Variable cache : CacheSpecT.

Local Abbreviation r := {| client := Fake.fakeClient; CacheSpec := cache |}.
Local Abbreviation run := (runEnsure HelmRepoName APIServerName ControllerName
  WebhookName helmrepo_ValidateDeployment mcm_ValidateDeployment
  subscription_Validate r).
Local Abbreviation validated := (validateByName HelmRepoName APIServerName
  ControllerName WebhookName helmrepo_ValidateDeployment
  mcm_ValidateDeployment r).
Local Abbreviation fetchedKey op m :=
  (fetchKind op, nnNamespace (fetchKey op m), nnName (fetchKey op m)).
Local Abbreviation quiet objs := {| Fake.objects := objs; Fake.faults := [] |}.

(** On a cluster with no fault pending, the first fetch answers by what
    is stored under the key. *)
Lemma fetch_absent op m objs :
  objs !! fetchedKey op m = None →
  fetch r op m (quiet objs) = (Some (Fake.notFound (fetchedKey op m)), quiet objs).
Proof.
  intros Hl. destruct op; simpl in Hl |- *;
    unfold Fake.get; simpl; rewrite Hl; reflexivity.
Qed.

Lemma create_absent op m objs :
  aligned op m →
  objs !! fetchedKey op m = None →
  createDesired r op (quiet objs)
  = (None, quiet (<[fetchedKey op m := desiredObject op]> objs)).
Proof.
  unfold aligned. intros Ha Hl.
  destruct op; simpl in Ha, Hl |- *;
    unfold Fake.create; simpl; rewrite Ha, Hl; reflexivity.
Qed.

(** C8, as the code has it. On the in-memory cluster with no fault
    pending, for a desired object that is absent, that is stored under
    the key the helper fetches it by, whose owner has a UID where the
    helper asks for one, and for which the validators ask for no update
    of the desired object itself: the first call of the helper is
    [Created] and the second, with the same input, is [NoOp]. *)
Theorem ensure_twice_created_then_noop op m objs cs :
  objs !! fetchedKey op m = None →
  aligned op m →
  ownerIdentified op m →
  settled (validated m) subscription_Validate op →
  createdThenNoOp (run op m) {| cluster := quiet objs; calls := cs |}.
Proof.
  intros Hl Ha Hu Hs.
  set (w := {| cluster := quiet objs; calls := cs |}).
  assert (E1 : run op m w =
               ((None, None),
                {| cluster := quiet (<[fetchedKey op m := desiredObject op]> objs);
                   calls := calls w ++ [CallGet (fetchKind op) (fetchKey op m);
                                        CallCreate (desiredObject op)] |})).
  { rewrite runEnsure_absent.
    - simpl cluster. rewrite (fetch_absent op m objs Hl). simpl.
      rewrite (create_absent op m objs Ha Hl). reflexivity.
    - simpl cluster. rewrite (fetch_absent op m objs Hl). reflexivity.
    - destruct op; try exact I. exact Hu. }
  unfold createdThenNoOp, outcomeOf.
  rewrite (issued_app _ _ _ _ _ E1), E1. split; [destruct op; reflexivity|].
  simpl snd.
  set (w1 := {| cluster := quiet (<[fetchedKey op m := desiredObject op]> objs);
                calls := cs ++ [CallGet (fetchKind op) (fetchKey op m);
                                CallCreate (desiredObject op)] |}).
  assert (E2 : run op m w1 =
               ((None, None),
                {| cluster := cluster w1;
                   calls := calls w1 ++ [CallGet (fetchKind op) (fetchKey op m)] |})).
  { destruct op.
    - rewrite (ensureDeployment_present _ _ _ _ _ _ _ _ dep m w1 dep (cluster w1)).
      + simpl in Hs. destruct (validated m dep) as [[? [|]]|]; done.
      + simpl. unfold Fake.get. simpl. rewrite lookup_insert_eq. reflexivity.
    - rewrite runEnsure_present_unvalidated; [|exact I|].
      + f_equal. f_equal. simpl. unfold Fake.get. simpl.
        rewrite lookup_insert_eq. reflexivity.
      + simpl. unfold Fake.get. simpl. rewrite lookup_insert_eq. reflexivity.
    - rewrite runEnsure_present_unvalidated; [|exact I|].
      + f_equal. f_equal. simpl. unfold Fake.get. simpl.
        rewrite lookup_insert_eq. reflexivity.
      + simpl. unfold Fake.get. simpl. rewrite lookup_insert_eq. reflexivity.
    - rewrite runEnsure_present_unvalidated; [|exact I|].
      + f_equal. f_equal. simpl. unfold Fake.get. simpl.
        rewrite lookup_insert_eq. reflexivity.
      + simpl. unfold Fake.get. simpl. rewrite lookup_insert_eq. reflexivity.
    - rewrite (ensureSubscription_present _ _ _ _ _ _ _ _ u m w1 u (cluster w1)).
      + simpl in Hs. destruct (subscription_Validate u u) as [? [|]]; done.
      + simpl. unfold Fake.get. simpl. rewrite lookup_insert_eq. reflexivity. }
  rewrite (issued_app _ _ _ _ _ E2), E2. reflexivity.
Qed.

End Twice.

(* ===================================================================== *)
(** ** The readiness gate *)
(* ===================================================================== *)

Section ApiReadyProperties.
Context {RestConfig DiscoveryClient : Type}.
Variable config_GetConfig : option RestConfig * option error.
Variable discovery_NewDiscoveryClientForConfig :
  option RestConfig → option DiscoveryClient * option error.
Variable discovery_ServerSupportsVersion :
  option DiscoveryClient → GroupVersion → option error.

Local Abbreviation ready :=
  (apiReady config_GetConfig discovery_NewDiscoveryClientForConfig
            discovery_ServerSupportsVersion).
Local Abbreviation requeueIn10s :=
  {| Requeue := false; RequeueAfter := 10000000000 |}.

(** The four ways through [apiReady]. *)
Lemma apiReady_cases gv :
  ready gv =
    match config_GetConfig.2 with
    | Some e => (Some emptyResult, Some e)
    | None =>
        let made := discovery_NewDiscoveryClientForConfig config_GetConfig.1 in
        match made.2 with
        | Some e => (Some emptyResult, Some e)
        | None =>
            match discovery_ServerSupportsVersion made.1 gv with
            | Some _ => (Some requeueIn10s, None)
            | None => (None, None)
            end
        end
    end.
Proof.
  unfold apiReady.
  destruct config_GetConfig as [cfg [e|]]; simpl; [reflexivity|].
  destruct (discovery_NewDiscoveryClientForConfig cfg) as [c [e|]]; simpl;
    [reflexivity|].
  destruct (discovery_ServerSupportsVersion c gv); reflexivity.
Qed.

(** C3, as the code has it. A failure to get the rest configuration or to
    make the discovery client returns the empty result with that error.
    With both at hand, every error of the version check, be it that the
    group version is not served or that the discovery endpoint did not
    answer, returns no error and a result whose [RequeueAfter] is ten
    seconds, its [Requeue] flag left false; and no error of the check
    returns nil and nil. *)
Theorem apiReady_requeues_on_any_check_error gv :
  (∀ e, config_GetConfig.2 = Some e → ready gv = (Some emptyResult, Some e))
  ∧ (config_GetConfig.2 = None →
     let made := discovery_NewDiscoveryClientForConfig config_GetConfig.1 in
     (∀ e, made.2 = Some e → ready gv = (Some emptyResult, Some e))
     ∧ (made.2 = None →
        (∀ e, discovery_ServerSupportsVersion made.1 gv = Some e →
              ready gv = (Some requeueIn10s, None))
        ∧ (discovery_ServerSupportsVersion made.1 gv = None →
           ready gv = (None, None)))).
Proof.
  rewrite apiReady_cases. split.
  - intros e ->. reflexivity.
  - intros ->. simpl. split.
    + intros e ->. reflexivity.
    + intros ->. split; intros; by simplify_eq/=; repeat case_match.
Qed.

Lemma apiReady_results gv :
  paired (ready gv) ∨ ready gv = (Some requeueIn10s, None).
Proof.
  rewrite apiReady_cases.
  destruct (config_GetConfig.2); [left; apply paired_error|].
  cbv zeta.
  destruct ((discovery_NewDiscoveryClientForConfig config_GetConfig.1).2);
    [left; apply paired_error|].
  destruct (discovery_ServerSupportsVersion _ gv);
    [right; reflexivity | left; apply paired_nil].
Qed.

End ApiReadyProperties.

(* ===================================================================== *)
(** ** The version file *)
(* ===================================================================== *)

Section FilesProperties.
Variable os_Stat : string → option FileInfo * option error.
Variable ioutil_ReadFile : string → string * option error.
Variable os_UserHomeDir : string * option error.
Variable path_Join : list string → string.
Variable filepath_Clean : string → string.
Variable strings_TrimSpace : string → string.

(** [os.Stat] failing with anything but not-exist leaves [info] nil, and
    [fileExists] calls a method on it. *)
Lemma fileExists_stat_error path e :
  os_Stat path = (None, Some e) →
  os_IsNotExist (Some e) = false →
  fileExists os_Stat path = Panics nilDereference.
Proof. intros Hs Hn. unfold fileExists. rewrite Hs, Hn. reflexivity. Qed.

Lemma readFileRaw_stat_error path e :
  os_Stat path = (None, Some e) →
  os_IsNotExist (Some e) = false →
  readFileRaw os_Stat ioutil_ReadFile filepath_Clean path = Panics nilDereference.
Proof.
  intros Hs Hn. unfold readFileRaw.
  rewrite (fileExists_stat_error path e Hs Hn). reflexivity.
Qed.

Lemma ReadComponentVersionFile_stat_error home e :
  os_UserHomeDir = (home, None) →
  os_Stat (path_Join [home; "COMPONENT_VERSION"]) = (None, Some e) →
  os_IsNotExist (Some e) = false →
  ReadComponentVersionFile os_Stat ioutil_ReadFile os_UserHomeDir path_Join
                           filepath_Clean strings_TrimSpace
  = Panics nilDereference.
Proof.
  intros Hh Hs Hn. unfold ReadComponentVersionFile. rewrite Hh. simpl.
  rewrite (readFileRaw_stat_error _ e Hs Hn). reflexivity.
Qed.

End FilesProperties.

(* ===================================================================== *)
(** ** The statements on concrete clusters and environments *)
(* ===================================================================== *)

(** The shape of the results. Each of the five ensure helpers and
    [copyPullSecret] returns, on every path, either nil with nil or the
    empty result with an error; [apiReady] returns one of these or, and it
    alone, a result carrying the ten-second requeue delay with a nil error,
    which it does return against an endpoint that does not serve the group
    version.  Which of the two a failed call leads to is another matter. *)
Theorem result_pairing :
  (∀ W n1 n2 n3 n4 v1 v2 v3 (r : ReconcileMultiClusterHub W) op m w,
      paired (runEnsure n1 n2 n3 n4 v1 v2 v3 r op m w).1)
  ∧ (∀ W c2u ail (r : ReconcileMultiClusterHub W) m newNS w,
      paired (copyPullSecret c2u ail r m newNS w).1)
  ∧ (∀ RestConfig DiscoveryClient
       (cfg : option RestConfig * option error)
       (mk : option RestConfig → option DiscoveryClient * option error)
       (ssv : option DiscoveryClient → GroupVersion → option error) gv,
      paired (apiReady cfg mk ssv gv)
      ∨ apiReady cfg mk ssv gv
        = (Some {| Requeue := false; RequeueAfter := 10 * time_Second |}, None))
  ∧ Example.ready Example.servingCore Example.appsV1
    = (Some {| Requeue := false; RequeueAfter := 10 * time_Second |}, None)
  ∧ ¬ paired (Example.ready Example.servingCore Example.appsV1).
Proof.
  split; [|split; [|split; [|split]]].
  - intros. apply runEnsure_paired.
  - intros. apply copyPullSecret_paired.
  - intros. apply apiReady_results.
  - reflexivity.
  - intros [H|[e H]]; discriminate H.
Qed.

Section OnTheCluster.
Import Example.

Local Abbreviation emptyWorld := (Fake.world [] []).

(** C1 at work: the fetch of a secret is forbidden; [ensureSecret] returns
    that error with the empty result and has issued the fetch alone. *)
Lemma ensure_fetch_error_surfaced_witness :
  let w := Fake.world [] [Some forbidden] in
  IsNotFound (fetch Fake.reconciler (OpSecret desiredSecret) hub (cluster w)).1 = false
  ∧ (ensure (OpSecret desiredSecret) hub w).1 = (Some emptyResult, Some forbidden)
  ∧ issued (ensure (OpSecret desiredSecret) hub) w
    = [CallGet "Secret" (fetchKey (OpSecret desiredSecret) hub)].
Proof.
  intros w. split; [reflexivity|].
  exact (proj2 (ensure_fetch_error_surfaced repoName apiServerName
                  controllerName webhookName validateDeployment
                  validateDeployment validateSubscription Fake.reconciler
                  (OpSecret desiredSecret) hub w eq_refl)
               forbidden eq_refl).
Defined.

(** C2 fails as stated: the owner has no UID and the secret is absent, and
    [ensureSecret] issues the create all the same. *)
Lemma ensureSecret_creates_without_owner_uid :
  UID (hubMeta hubNoUID) = ""
  ∧ IsNotFound (fetch Fake.reconciler (OpSecret desiredSecret) hubNoUID
                      (cluster emptyWorld)).1 = true
  ∧ List.filter isCreate (issued (ensure (OpSecret desiredSecret) hubNoUID) emptyWorld)
    = [CallCreate (ObjSecret desiredSecret)]
  ∧ ¬ skipsCreate (ensure (OpSecret desiredSecret) hubNoUID) emptyWorld.
Proof.
  split; [reflexivity|]. split; [reflexivity|]. split; [reflexivity|].
  intros [_ H]. vm_compute in H. discriminate H.
Qed.

(** C2 at work: without an owner UID the subscription is not created, and
    the secret is. *)
Lemma create_skipped_for_subscription_only_witness :
  (skipsCreate (ensure (OpSubscription subscription) hubNoUID) emptyWorld
   ∧ calls (ensure (OpSubscription subscription) hubNoUID emptyWorld).2
     = [CallGet "Subscription" (fetchKey (OpSubscription subscription) hubNoUID)])
  ∧ ((ensure (OpSecret desiredSecret) hubNoUID emptyWorld).1 = (None, None)
     ∧ List.filter isCreate (issued (ensure (OpSecret desiredSecret) hubNoUID)
                                    emptyWorld)
       = [CallCreate (ObjSecret desiredSecret)]).
Proof.
  split.
  - pose proof (create_skipped_for_subscription_only repoName apiServerName
                  controllerName webhookName validateDeployment
                  validateDeployment validateSubscription Fake.reconciler
                  (OpSubscription subscription) hubNoUID emptyWorld eq_refl)
      as H.
    cbv zeta in H. destruct H as [H _]. destruct (H eq_refl) as [Hs E].
    split; [exact Hs | exact (f_equal (λ x, calls x.2) E)].
  - pose proof (create_skipped_for_subscription_only repoName apiServerName
                  controllerName webhookName validateDeployment
                  validateDeployment validateSubscription Fake.reconciler
                  (OpSecret desiredSecret) hubNoUID emptyWorld eq_refl)
      as H.
    cbv zeta in H. destruct H as [E Hc].
    split; [exact (f_equal fst E) | exact Hc].
Defined.

(** C3 fails as stated: the discovery endpoint cannot be reached, and
    [apiReady] returns the ten-second requeue and no error. *)
Lemma apiReady_hides_unreachable_endpoint :
  (ServerGroups unreachable).2
    = Some (errorString "dial tcp 10.0.0.1:443: connect: connection refused")
  ∧ ready unreachable appsV1
    = (Some {| Requeue := false; RequeueAfter := 10 * time_Second |}, None)
  ∧ ¬ surfacesProbeFailure unreachable appsV1.
Proof.
  split; [reflexivity|]. split; [reflexivity|].
  intros H. destruct (H eq_refl) as [e He]. discriminate He.
Qed.

Lemma apiReady_requeues_on_any_check_error_witness :
  ready servingCore appsV1
  = (Some {| Requeue := false; RequeueAfter := 10000000000 |}, None).
Proof.
  exact (proj1 (proj2 (proj2 (apiReady_requeues_on_any_check_error
                                (Some "https://10.0.0.1:443", None)
                                (clientgo_NewDiscoveryClientForConfig servingCore)
                                clientgo_ServerSupportsVersion appsV1)
                             eq_refl) eq_refl)
               _ eq_refl).
Defined.



(** C5 at work, in the namespace of cert-manager: once with a secret of
    that name in place, once without; then the copy is in the cluster. *)
Lemma copyPullSecret_one_shot_witness :
  let present := Fake.world [ObjSecret pullSecret; ObjUnstructured existingCopy] [] in
  let absent := Fake.world [ObjSecret pullSecret] [] in
  ((copy hub certManagerNamespace present).1 = (None, None)
   ∧ outcomeOf (copy hub certManagerNamespace) present = Some NoOp
   ∧ List.filter isWrite (issued (copy hub certManagerNamespace) present) = []
   ∧ cluster (copy hub certManagerNamespace present).2 = cluster present)
  ∧ ∃ created,
      List.filter isWrite (issued (copy hub certManagerNamespace) absent)
      = [CallCreate (ObjUnstructured created)]
      ∧ (copy hub certManagerNamespace absent).1 = (None, None)
      ∧ outcomeOf (copy hub certManagerNamespace) absent = Some Created
      ∧ Fake.objects (cluster (copy hub certManagerNamespace absent).2)
          !! ("Secret", certManagerNamespace, "pull-secret")
        = Some (ObjUnstructured created).
Proof.
  intros present absent. split.
  - destruct (proj1 (copyPullSecret_one_shot utils_CoreToUnstructured
                       utils_AddInstallerLabel Fake.reconciler hub
                       certManagerNamespace present pullSecret (cluster present)
                       _ eq_refl eq_refl)
                    existingCopy (cluster present) eq_refl)
      as (H1 & H2 & H3 & H4 & _).
    repeat split; assumption.
  - exists (utils_AddInstallerLabel
              (utils_CoreToUnstructured
                 (SetUID "" (SetResourceVersion ""
                    (SetSelfLink "" (SetNamespace certManagerNamespace pullSecret))))).1
              "multiclusterhub" hubNamespace).
    destruct (proj2 (copyPullSecret_one_shot utils_CoreToUnstructured
                       utils_AddInstallerLabel Fake.reconciler hub
                       certManagerNamespace absent pullSecret (cluster absent)
                       _ eq_refl eq_refl)
                    _ _ (cluster absent) eq_refl eq_refl)
      as (E & Hw & Ho).
    split; [exact Hw|]. split; [exact (f_equal fst E)|].
    split; [exact (Ho eq_refl)|].
    unfold copy. rewrite E. reflexivity.
Defined.

(** C6 at work: the copy of the pull secret, as handed to the create and
    as the cluster holds it afterwards. *)
Lemma copyPullSecret_target_copy_witness :
  let w := Fake.world [ObjSecret pullSecret] [] in
  ∃ target,
    List.filter isWrite (issued (copy hub certManagerNamespace) w)
    = [CallCreate (ObjUnstructured target)]
    ∧ Fake.objects (cluster (copy hub certManagerNamespace w).2)
        !! ("Secret", certManagerNamespace, "pull-secret")
      = Some (ObjUnstructured target)
    ∧ Namespace (uMeta target) = certManagerNamespace
    ∧ ResourceVersion (uMeta target) = ""
    ∧ SelfLink (uMeta target) = ""
    ∧ UID (uMeta target) = ""
    ∧ Name (uMeta target) = "pull-secret"
    ∧ GetLabels target !! "installer.name" = Some "multiclusterhub"
    ∧ GetLabels target !! "installer.namespace" = Some hubNamespace
    ∧ uContent target !! "data" = Some (VMap (Data pullSecret))
    ∧ uContent target !! "type" = Some (VString "kubernetes.io/dockerconfigjson").
Proof.
  intros w. eexists.
  destruct (copyPullSecret_target_copy Fake.reconciler hub certManagerNamespace w
              pullSecret (cluster w) _ (cluster w) eq_refl eq_refl eq_refl)
    as (E & Hw & Hfields).
  split; [exact Hw|]. split; [|exact Hfields].
  unfold copy. rewrite E. reflexivity.
Defined.

(** C7. The code breaks the claim: the fetch in the target namespace fails
    with a forbidden error, which is not a not-found, and [copyPullSecret]
    returns nil and nil instead of that error, having written nothing. *)
Theorem copyPullSecret_drops_target_fetch_error :
  let w := Fake.world [ObjSecret pullSecret] [None; Some forbidden] in
  IsNotFound (Some forbidden) = false
  ∧ (copy hub certManagerNamespace w).1 = (None, None)
  ∧ issued (copy hub certManagerNamespace) w
    = [CallGet "Secret" {| nnName := "pull-secret"; nnNamespace := hubNamespace |};
       CallGet "Secret" {| nnName := "pull-secret";
                           nnNamespace := certManagerNamespace |}]
  ∧ Fake.faults (cluster (copy hub certManagerNamespace w).2) = [].
Proof. intros w. repeat split; reflexivity. Qed.

(** C10. The code breaks the claim: the second call of [copyPullSecret],
    the fetch in the target namespace, fails with a timeout; this failure
    path returns a nil result with a nil error, not the empty result with
    the error. *)
Theorem copyPullSecret_failed_fetch_returns_nil_nil :
  let w := Fake.world [ObjSecret pullSecret] [None; Some timeout] in
  let afterSource := {| Fake.objects := Fake.objects (cluster w);
                        Fake.faults := [Some timeout] |} in
  let copied :=
    utils_AddInstallerLabel
      (utils_CoreToUnstructured
         (SetUID "" (SetResourceVersion ""
            (SetSelfLink "" (SetNamespace certManagerNamespace pullSecret))))).1
      "multiclusterhub" hubNamespace in
  (Get Fake.fakeClient
       {| nnName := "pull-secret"; nnNamespace := hubNamespace |}
       emptySecret (cluster w)).2 = afterSource
  ∧ (Get Fake.fakeClient
         {| nnName := "pull-secret"; nnNamespace := certManagerNamespace |}
         copied afterSource).1.1 = Some timeout
  ∧ (copy hub certManagerNamespace w).1 = (None, None)
  ∧ ¬ (∃ e, (copy hub certManagerNamespace w).1 = (Some emptyResult, Some e))
  ∧ paired (copy hub certManagerNamespace w).1.
Proof.
  intros w afterSource copied.
  split; [reflexivity|]. split; [reflexivity|]. split; [reflexivity|].
  split; [intros [e H]; discriminate H | left; reflexivity].
Qed.

(** C8 fails as stated: the owner has no UID, and the first call of
    [ensureSubscription] on a cluster without the subscription creates
    nothing. *)
Lemma ensureSubscription_first_call_not_created :
  Fake.objects (cluster emptyWorld) = ∅
  ∧ outcomeOf (ensure (OpSubscription subscription) hubNoUID) emptyWorld = Some NoOp
  ∧ ¬ createdThenNoOp (ensure (OpSubscription subscription) hubNoUID) emptyWorld.
Proof.
  split; [reflexivity|]. split; [reflexivity|].
  intros [H _]. vm_compute in H. discriminate H.
Qed.

Lemma ensure_twice_created_then_noop_witness :
  createdThenNoOp (ensure (OpSubscription subscription) hub) emptyWorld.
Proof.
  refine (ensure_twice_created_then_noop repoName apiServerName controllerName
            webhookName validateDeployment validateDeployment
            validateSubscription (CacheSpec Fake.reconciler)
            (OpSubscription subscription) hub ∅ [] eq_refl eq_refl _ eq_refl).
  simpl. discriminate.
Defined.

(** C9. The code breaks the claim: [stat] of the version file fails with a
    permission error, and [readFileRaw] and [ReadComponentVersionFile] panic
    on the nil [info] instead of returning an error. *)
Theorem readFileRaw_panics_on_stat_error :
  os_IsNotExist (statDenied versionPath).2 = false
  ∧ readFileRaw statDenied readDenied (λ p, p) versionPath
    = Panics nilDereference
  ∧ ReadComponentVersionFile statDenied readDenied ("/root", None) join
                             (λ p, p) (λ s, s)
    = Panics nilDereference.
Proof. repeat split; reflexivity. Qed.

End OnTheCluster.

(* ===================================================================== *)
(** ** Further behaviour of the ensure helpers and of the copy *)
(* ===================================================================== *)

Section EnsureBehaviour.
Context {W : Type}.
Variables HelmRepoName APIServerName ControllerName WebhookName : string.
Variable helmrepo_ValidateDeployment :
  MultiClusterHub → CacheSpecT → Deployment → Deployment * bool.
Variable mcm_ValidateDeployment :
  MultiClusterHub → CacheSpecT → Deployment → Deployment * bool.
Variable subscription_Validate :
  Unstructured → Unstructured → Unstructured * bool.
Variable CoreToUnstructured : Secret → Unstructured * option error.
Variable AddInstallerLabel : Unstructured → string → string → Unstructured.
Variable r : ReconcileMultiClusterHub W.

Local Abbreviation run := (runEnsure HelmRepoName APIServerName ControllerName
  WebhookName helmrepo_ValidateDeployment mcm_ValidateDeployment
  subscription_Validate r).
Local Abbreviation validated := (validateByName HelmRepoName APIServerName
  ControllerName WebhookName helmrepo_ValidateDeployment
  mcm_ValidateDeployment r).
Local Abbreviation fetched := (fetch r).
Local Abbreviation fetchCall op m := (CallGet (fetchKind op) (fetchKey op m)).
Local Abbreviation copy := (copyPullSecret CoreToUnstructured AddInstallerLabel r).
Local Abbreviation sourceKey m :=
  {| nnName := ImagePullSecret (Spec m); nnNamespace := Namespace (hubMeta m) |}.
Local Abbreviation stripped newNS s :=
  (SetUID "" (SetResourceVersion "" (SetSelfLink "" (SetNamespace newNS s)))).
Local Abbreviation subscriptionInto :=
  (SetGroupVersionKind
     {| Group := "apps.open-cluster-management.io"; Kind := "Subscription";
        Version := "v1" |} emptyUnstructured).

(** X1. When the first fetch answers not-found (and the owner has a UID
    where the helper asks for one) and the create fails, each ensure helper
    returns the empty result with the error of the create, unchanged; it has
    issued the fetch and that one create, and makes no second attempt. *)
Theorem ensure_create_error_returned op m w e :
  IsNotFound (fetched op m (cluster w)).1 = true →
  ownerIdentified op m →
  (createDesired r op (fetched op m (cluster w)).2).1 = Some e →
  (run op m w).1 = (Some emptyResult, Some e)
  ∧ issued (run op m) w = [fetchCall op m; CallCreate (desiredObject op)]
  ∧ cluster (run op m w).2 = (createDesired r op (fetched op m (cluster w)).2).2.
Proof.
  intros Hf Hu Hc.
  pose proof (runEnsure_absent HelmRepoName APIServerName ControllerName
                WebhookName helmrepo_ValidateDeployment mcm_ValidateDeployment
                subscription_Validate r op m w Hf Hu) as E.
  cbv zeta in E. rewrite Hc in E. simpl in E.
  rewrite (issued_app _ _ _ _ _ E), E. done.
Qed.

(** X2. When the update of a present deployment or subscription fails, the
    helper returns the empty result with the error of the update, unchanged,
    after the fetch and that one update. *)
Theorem ensure_update_error_returned m w e :
  (∀ dep found cl1 desired,
      Get (client r) (fetchKey (OpDeployment dep) m) emptyDeployment (cluster w)
        = ((None, found), cl1) →
      validated m found = Some (desired, true) →
      (Update (client r) desired cl1).1 = Some e →
      (run (OpDeployment dep) m w).1 = (Some emptyResult, Some e)
      ∧ issued (run (OpDeployment dep) m) w
        = [fetchCall (OpDeployment dep) m; CallUpdate (ObjDeployment desired)])
  ∧ (∀ u found cl1 updated,
      Get (client r) (fetchKey (OpSubscription u) m) subscriptionInto (cluster w)
        = ((None, found), cl1) →
      subscription_Validate found u = (updated, true) →
      (Update (client r) updated cl1).1 = Some e →
      (run (OpSubscription u) m w).1 = (Some emptyResult, Some e)
      ∧ issued (run (OpSubscription u) m) w
        = [fetchCall (OpSubscription u) m; CallUpdate (ObjUnstructured updated)]).
Proof.
  split.
  - intros dep found cl1 desired Hg Hv Hu.
    pose proof (ensureDeployment_present HelmRepoName APIServerName
                  ControllerName WebhookName helmrepo_ValidateDeployment
                  mcm_ValidateDeployment subscription_Validate r dep m w found
                  cl1 Hg) as E.
    rewrite Hv in E. cbv zeta in E. rewrite Hu in E. simpl in E.
    unfold runEnsure. rewrite (issued_app _ _ _ _ _ E), E. done.
  - intros u found cl1 updated Hg Hv Hu.
    pose proof (ensureSubscription_present HelmRepoName APIServerName
                  ControllerName WebhookName helmrepo_ValidateDeployment
                  mcm_ValidateDeployment subscription_Validate r u m w found
                  cl1 Hg) as E.
    rewrite Hv in E. cbv zeta in E. rewrite Hu in E. simpl in E.
    unfold runEnsure. rewrite (issued_app _ _ _ _ _ E), E. done.
Qed.

(** X20. A present deployment or subscription whose validator reports that
    no update is needed is not written: the helper returns nil and nil after
    the fetch alone, and the object the validator returned is not used. *)
Theorem ensure_no_update_needed m w :
  (∀ dep found cl1 desired,
      Get (client r) (fetchKey (OpDeployment dep) m) emptyDeployment (cluster w)
        = ((None, found), cl1) →
      validated m found = Some (desired, false) →
      run (OpDeployment dep) m w
      = ((None, None),
         {| cluster := cl1;
            calls := calls w ++ [fetchCall (OpDeployment dep) m] |}))
  ∧ (∀ u found cl1 updated,
      Get (client r) (fetchKey (OpSubscription u) m) subscriptionInto (cluster w)
        = ((None, found), cl1) →
      subscription_Validate found u = (updated, false) →
      run (OpSubscription u) m w
      = ((None, None),
         {| cluster := cl1;
            calls := calls w ++ [fetchCall (OpSubscription u) m] |})).
Proof.
  split.
  - intros dep found cl1 desired Hg Hv.
    rewrite (ensureDeployment_present HelmRepoName APIServerName
               ControllerName WebhookName helmrepo_ValidateDeployment
               mcm_ValidateDeployment subscription_Validate r dep m w found
               cl1 Hg).
    rewrite Hv. reflexivity.
  - intros u found cl1 updated Hg Hv.
    rewrite (ensureSubscription_present HelmRepoName APIServerName
               ControllerName WebhookName helmrepo_ValidateDeployment
               mcm_ValidateDeployment subscription_Validate r u m w found
               cl1 Hg).
    rewrite Hv. reflexivity.
Qed.

(** X3. A present deployment whose name is none of the four known names is
    left alone: [ensureDeployment] consults no validator, issues no write
    and returns nil and nil, whatever the stored and the desired deployment
    hold. *)
Theorem ensureDeployment_unknown_name dep m w found cl1 :
  Get (client r) (fetchKey (OpDeployment dep) m) emptyDeployment (cluster w)
    = ((None, found), cl1) →
  Name (depMeta found) ≠ HelmRepoName →
  Name (depMeta found) ≠ APIServerName →
  Name (depMeta found) ≠ ControllerName →
  Name (depMeta found) ≠ WebhookName →
  run (OpDeployment dep) m w
  = ((None, None),
     {| cluster := cl1; calls := calls w ++ [fetchCall (OpDeployment dep) m] |}).
Proof.
  intros Hg H1 H2 H3 H4.
  rewrite (ensureDeployment_present HelmRepoName APIServerName
             ControllerName WebhookName helmrepo_ValidateDeployment
             mcm_ValidateDeployment subscription_Validate r dep m w found
             cl1 Hg).
  unfold validateByName.
  apply String.eqb_neq in H1, H2, H3, H4. rewrite H1, H2, H3, H4. reflexivity.
Qed.

(** X4. Whatever the cluster answers, an ensure helper issues its fetch
    first and then at most one write.  The write is the create of the
    desired object as it was handed in, or, for deployments and
    subscriptions only, one update; [ensureService], [ensureSecret] and
    [ensureChannel] never update. *)
Theorem ensure_one_fetch_at_most_one_write op m w :
  issued (run op m) w = [fetchCall op m]
  ∨ issued (run op m) w = [fetchCall op m; CallCreate (desiredObject op)]
  ∨ (match op with OpDeployment _ | OpSubscription _ => True | _ => False end
     ∧ ∃ o, issued (run op m) w = [fetchCall op m; CallUpdate o]).
Proof.
  destruct (IsNotFound (fetched op m (cluster w)).1) eqn:Hn.
  - assert (Hc : ownerIdentified op m →
                 issued (run op m) w
                 = [fetchCall op m; CallCreate (desiredObject op)]).
    { intros Hu. eapply issued_app. apply runEnsure_absent; [exact Hn|exact Hu]. }
    destruct op; try (right; left; apply Hc; exact I).
    destruct (decide (UID (hubMeta m) = "")) as [Hu|Hu].
    + left. eapply issued_app.
      apply ensureSubscription_no_owner_uid; [exact Hn|exact Hu].
    + right; left. apply Hc. exact Hu.
  - destruct ((fetched op m (cluster w)).1) as [e|] eqn:Hf.
    + left. eapply issued_app, runEnsure_fetch_error; eauto.
    + pose proof (fetched_None_Get r op m (cluster w) Hf) as Hg.
      destruct op.
      * destruct Hg as [found Hg].
        pose proof (ensureDeployment_present HelmRepoName APIServerName
                      ControllerName WebhookName helmrepo_ValidateDeployment
                      mcm_ValidateDeployment subscription_Validate r dep m w
                      found _ Hg) as E.
        destruct (validated m found) as [[desired [|]]|];
          [right; right; split; [exact I|eexists] | left | left];
          eapply issued_app; exact E.
      * left. eapply issued_app, runEnsure_present_unvalidated; eauto.
      * left. eapply issued_app, runEnsure_present_unvalidated; eauto.
      * left. eapply issued_app, runEnsure_present_unvalidated; eauto.
      * destruct Hg as [found Hg].
        pose proof (ensureSubscription_present HelmRepoName APIServerName
                      ControllerName WebhookName helmrepo_ValidateDeployment
                      mcm_ValidateDeployment subscription_Validate r u m w
                      found _ Hg) as E.
        destruct (subscription_Validate found u) as [updated [|]];
          [right; right; split; [exact I|eexists] | left];
          eapply issued_app; exact E.
Qed.

(** The source of the copy cannot be read: [copyPullSecret] stops there. *)
Lemma copyPullSecret_source_error m newNS w e src cl1 :
  Get (client r) (sourceKey m) emptySecret (cluster w) = ((Some e, src), cl1) →
  copy m newNS w
  = ((Some emptyResult, Some e),
     {| cluster := cl1; calls := calls w ++ [CallGet "Secret" (sourceKey m)] |}).
Proof.
  intros Hs. unfold_helpers. simpl. rewrite Hs. reflexivity.
Qed.

(** The source cannot be converted: [copyPullSecret] stops there. *)
Lemma copyPullSecret_conversion_error m newNS w src cl1 u e :
  Get (client r) (sourceKey m) emptySecret (cluster w) = ((None, src), cl1) →
  CoreToUnstructured (stripped newNS src) = (u, Some e) →
  copy m newNS w
  = ((Some emptyResult, Some e),
     {| cluster := cl1; calls := calls w ++ [CallGet "Secret" (sourceKey m)] |}).
Proof.
  intros Hs Hc. unfold_helpers. simpl. rewrite Hs. simpl. rewrite Hc. reflexivity.
Qed.

(** X5. Whatever the cluster answers, [copyPullSecret] reads the source
    secret first, then at most looks in the target namespace, then at most
    creates: it issues at most one write, and never an update. *)
Theorem copyPullSecret_calls m newNS w :
  issued (copy m newNS) w = [CallGet "Secret" (sourceKey m)]
  ∨ ∃ kind key,
      issued (copy m newNS) w
      = [CallGet "Secret" (sourceKey m); CallGet kind key]
      ∨ ∃ obj,
          issued (copy m newNS) w
          = [CallGet "Secret" (sourceKey m); CallGet kind key;
             CallCreate (ObjUnstructured obj)].
Proof.
  destruct (Get (client r) (sourceKey m) emptySecret (cluster w))
    as [[[e|] src] cl1] eqn:Hs.
  - left. eapply issued_app, copyPullSecret_source_error. exact Hs.
  - destruct (CoreToUnstructured (stripped newNS src)) as [u [e|]] eqn:Hc.
    + left. eapply issued_app, copyPullSecret_conversion_error; eauto.
    + right.
      destruct (Get (client r)
                  {| nnName := GetName (AddInstallerLabel u (Name (hubMeta m))
                                          (Namespace (hubMeta m)));
                     nnNamespace := newNS |}
                  (AddInstallerLabel u (Name (hubMeta m)) (Namespace (hubMeta m)))
                  cl1) as [[err obj] cl2] eqn:Ht.
      pose proof (copyPullSecret_target CoreToUnstructured AddInstallerLabel r
                    m newNS w src cl1 u err obj cl2 Hs Hc Ht) as E.
      cbv zeta in E. do 2 eexists.
      destruct (IsNotFound err);
        [right; eexists | left]; eapply issued_app; exact E.
Qed.

(** X6. A source secret that cannot be read, be it that it is not found,
    ends [copyPullSecret] with that error and the empty result: a missing
    source is a failure, the target namespace is not looked at and nothing
    is created. *)
Theorem copyPullSecret_source_error_returned m newNS w e src cl1 :
  Get (client r) (sourceKey m) emptySecret (cluster w) = ((Some e, src), cl1) →
  (copy m newNS w).1 = (Some emptyResult, Some e)
  ∧ issued (copy m newNS) w = [CallGet "Secret" (sourceKey m)]
  ∧ cluster (copy m newNS w).2 = cl1.
Proof.
  intros Hs. pose proof (copyPullSecret_source_error m newNS w e src cl1 Hs) as E.
  rewrite (issued_app _ _ _ _ _ E), E. done.
Qed.

(** X7. A source secret that cannot be converted ends [copyPullSecret] with
    the error of the conversion and the empty result, before the target
    namespace is looked at. *)
Theorem copyPullSecret_conversion_error_returned m newNS w src cl1 u e :
  Get (client r) (sourceKey m) emptySecret (cluster w) = ((None, src), cl1) →
  CoreToUnstructured (stripped newNS src) = (u, Some e) →
  (copy m newNS w).1 = (Some emptyResult, Some e)
  ∧ issued (copy m newNS) w = [CallGet "Secret" (sourceKey m)]
  ∧ cluster (copy m newNS w).2 = cl1.
Proof.
  intros Hs Hc.
  pose proof (copyPullSecret_conversion_error m newNS w src cl1 u e Hs Hc) as E.
  rewrite (issued_app _ _ _ _ _ E), E. done.
Qed.

(** X8. When the target namespace has no such secret and the create of the
    copy fails, [copyPullSecret] returns the empty result with the error of
    the create, unchanged. *)
Theorem copyPullSecret_create_error_returned m newNS w src cl1 u nf obj cl2 e :
  Get (client r) (sourceKey m) emptySecret (cluster w) = ((None, src), cl1) →
  CoreToUnstructured (stripped newNS src) = (u, None) →
  Get (client r)
      {| nnName := GetName (AddInstallerLabel u (Name (hubMeta m))
                              (Namespace (hubMeta m)));
         nnNamespace := newNS |}
      (AddInstallerLabel u (Name (hubMeta m)) (Namespace (hubMeta m))) cl1
    = ((Some nf, obj), cl2) →
  IsNotFound (Some nf) = true →
  (Create (client r) obj cl2).1 = Some e →
  (copy m newNS w).1 = (Some emptyResult, Some e)
  ∧ List.filter isWrite (issued (copy m newNS) w) = [CallCreate (ObjUnstructured obj)].
Proof.
  intros Hs Hc Ht Hn He.
  pose proof (copyPullSecret_target CoreToUnstructured AddInstallerLabel r
                m newNS w src cl1 u _ obj cl2 Hs Hc Ht) as E.
  cbv zeta in E. rewrite Hn, He in E. simpl in E.
  rewrite (issued_app _ _ _ _ _ E), E. done.
Qed.

End EnsureBehaviour.

(* ===================================================================== *)
(** ** Further behaviour on the in-memory cluster *)
(* ===================================================================== *)

Section ClusterBehaviour.
Variables HelmRepoName APIServerName ControllerName WebhookName : string.
Variable helmrepo_ValidateDeployment :
  MultiClusterHub → CacheSpecT → Deployment → Deployment * bool.
Variable mcm_ValidateDeployment :
  MultiClusterHub → CacheSpecT → Deployment → Deployment * bool.
Variable subscription_Validate :
  Unstructured → Unstructured → Unstructured * bool.
Variable cache : CacheSpecT.

Local Abbreviation r := {| client := Fake.fakeClient; CacheSpec := cache |}.
Local Abbreviation run := (runEnsure HelmRepoName APIServerName ControllerName
  WebhookName helmrepo_ValidateDeployment mcm_ValidateDeployment
  subscription_Validate r).
Local Abbreviation fetchedKey op m :=
  (fetchKind op, nnNamespace (fetchKey op m), nnName (fetchKey op m)).
Local Abbreviation fetchCall op m := (CallGet (fetchKind op) (fetchKey op m)).
Local Abbreviation ownKey op := (Fake.keyOf (desiredObject op)).
Local Abbreviation state objs fs := {| Fake.objects := objs; Fake.faults := fs |}.

(** The first fetch and the create on a cluster whose next call is not
    scripted to fail. *)
Lemma fetch_absent_next op m objs fs :
  objs !! fetchedKey op m = None →
  fetch r op m (state objs (None :: fs))
  = (Some (Fake.notFound (fetchedKey op m)), state objs fs).
Proof.
  intros Hl. destruct op; simpl in Hl |- *;
    unfold Fake.get; simpl; rewrite Hl; reflexivity.
Qed.

Lemma create_fault op objs e fs :
  createDesired r op (state objs (Some e :: fs)) = (Some e, state objs fs).
Proof. destruct op; reflexivity. Qed.

Lemma create_fresh op objs :
  objs !! ownKey op = None →
  createDesired r op (state objs [])
  = (None, state (<[ownKey op := desiredObject op]> objs) []).
Proof.
  intros Hl. destruct op; simpl in Hl |- *;
    unfold Fake.create; simpl; rewrite Hl; reflexivity.
Qed.

Lemma create_taken op objs o :
  objs !! ownKey op = Some o →
  createDesired r op (state objs [])
  = (Some (Fake.alreadyExists (ownKey op)), state objs []).
Proof.
  intros Hl. destruct op; simpl in Hl |- *;
    unfold Fake.create; simpl; rewrite Hl; reflexivity.
Qed.

(** What a not-found first fetch and the create that follows amount to, on
    a cluster with no fault pending. *)
Lemma run_absent_quiet op m objs cs :
  objs !! fetchedKey op m = None →
  ownerIdentified op m →
  run op m {| cluster := state objs []; calls := cs |}
  = (let err := (createDesired r op (state objs [])).1 in
     if notNil err then (Some emptyResult, err) else (None, None),
     {| cluster := (createDesired r op (state objs [])).2;
        calls := cs ++ [fetchCall op m; CallCreate (desiredObject op)] |}).
Proof.
  intros Hl Hu.
  rewrite runEnsure_absent.
  - simpl cluster. rewrite (fetch_absent cache op m objs Hl). reflexivity.
  - simpl cluster. rewrite (fetch_absent cache op m objs Hl). reflexivity.
  - exact Hu.
Qed.

(** X9. The helpers fetch by one key and create under the key of the
    desired object itself.  When the two differ (for the four helpers that
    fetch in the owner's namespace: a desired object in another namespace),
    the first call creates the object and the second, not finding it where
    it looks, tries to create it again and fails with already-exists. *)
Theorem ensure_misaligned_second_call_fails op m objs cs :
  ownKey op ≠ fetchedKey op m →
  objs !! fetchedKey op m = None →
  objs !! ownKey op = None →
  ownerIdentified op m →
  let w := {| cluster := state objs []; calls := cs |} in
  outcomeOf (run op m) w = Some Created
  ∧ outcomeOf (run op m) (run op m w).2
    = Some (Failed (Fake.alreadyExists (ownKey op))).
Proof.
  intros Hk Hf Ho Hu w.
  pose proof (run_absent_quiet op m objs cs Hf Hu) as E1.
  rewrite (create_fresh op objs Ho) in E1. simpl in E1.
  assert (Hf' : <[ownKey op := desiredObject op]> objs !! fetchedKey op m = None)
    by (rewrite lookup_insert_ne by exact Hk; exact Hf).
  pose proof (run_absent_quiet op m _
                (cs ++ [fetchCall op m; CallCreate (desiredObject op)]) Hf' Hu)
    as E2.
  rewrite (create_taken op _ (desiredObject op)) in E2
    by apply lookup_insert_eq.
  simpl in E2.
  unfold outcomeOf. subst w.
  rewrite (issued_app _ _ _ _ _ E1), E1. simpl snd.
  rewrite (issued_app _ _ _ _ _ E2), E2.
  split; [destruct op; reflexivity | reflexivity].
Qed.

(** X10. A create that fails leaves the cluster as it was, and the helper
    does not retry: the call is [Failed] with the error of the create.  The
    next call, with the fault gone, creates the object. *)
Theorem ensure_create_failure_then_retry op m objs cs e :
  objs !! fetchedKey op m = None →
  objs !! ownKey op = None →
  ownerIdentified op m →
  let w := {| cluster := state objs [None; Some e]; calls := cs |} in
  outcomeOf (run op m) w = Some (Failed e)
  ∧ Fake.objects (cluster (run op m w).2) = objs
  ∧ outcomeOf (run op m) (run op m w).2 = Some Created.
Proof.
  intros Hf Ho Hu w.
  assert (E1 : run op m w
               = ((Some emptyResult, Some e),
                  {| cluster := state objs [];
                     calls := cs ++ [fetchCall op m;
                                     CallCreate (desiredObject op)] |})).
  { subst w. rewrite runEnsure_absent.
    - simpl cluster. rewrite (fetch_absent_next op m objs [Some e] Hf).
      simpl. rewrite create_fault. reflexivity.
    - simpl cluster. rewrite (fetch_absent_next op m objs [Some e] Hf).
      reflexivity.
    - exact Hu. }
  pose proof (run_absent_quiet op m objs
                (cs ++ [fetchCall op m; CallCreate (desiredObject op)]) Hf Hu)
    as E2.
  rewrite (create_fresh op objs Ho) in E2. simpl in E2.
  unfold outcomeOf.
  rewrite (issued_app _ _ _ _ _ E1), E1. simpl snd.
  rewrite (issued_app _ _ _ _ _ E2), E2.
  split; [reflexivity|]. split; [reflexivity|]. destruct op; reflexivity.
Qed.

Lemma get_keeps_objects T `{RuntimeObject T} key (obj : T) c :
  Fake.objects (Fake.get T key obj c).2 = Fake.objects c.
Proof.
  unfold Fake.get, Fake.nextFault.
  destruct (Fake.faults c) as [|[e|] fs]; simpl;
    repeat case_match; reflexivity.
Qed.

Lemma create_keeps_objects T `{RuntimeObject T} (obj : T) c :
  Fake.objects c ⊆ Fake.objects (Fake.create T obj c).2.
Proof.
  unfold Fake.create, Fake.nextFault.
  destruct (Fake.faults c) as [|[e|] fs]; simpl;
    repeat case_match; simpl; try reflexivity;
    by apply insert_subseteq.
Qed.

Lemma fetch_keeps_objects op m c :
  Fake.objects (fetch r op m c).2 = Fake.objects c.
Proof.
  destruct op; simpl;
    match goal with
    | |- context [Fake.get ?T ?k ?o ?c] =>
        pose proof (get_keeps_objects T k o c) as Hg;
        destruct (Fake.get T k o c) as [[? ?] ?]
    end; exact Hg.
Qed.

Lemma createDesired_keeps_objects op c :
  Fake.objects c ⊆ Fake.objects (createDesired r op c).2.
Proof. destruct op; apply create_keeps_objects. Qed.

(** X11. [ensureService], [ensureSecret], [ensureChannel] and
    [copyPullSecret] never change or remove an object the cluster already
    holds, whatever the cluster holds and whichever calls fail: every object
    stored before the call is stored, as it was, after it. *)
Theorem existing_objects_kept :
  (∀ op m w,
      match op with OpService _ | OpSecret _ | OpChannel _ => True | _ => False end →
      Fake.objects (cluster w) ⊆ Fake.objects (cluster (run op m w).2))
  ∧ (∀ c2u ail m newNS w,
      Fake.objects (cluster w)
      ⊆ Fake.objects (cluster (copyPullSecret c2u ail r m newNS w).2)).
Proof.
  split.
  - intros op m w Hop.
    pose proof (fetch_keeps_objects op m (cluster w)) as Hg.
    destruct (IsNotFound (fetch r op m (cluster w)).1) eqn:Hn.
    + rewrite runEnsure_absent; [|exact Hn|by destruct op].
      simpl. rewrite <- Hg. apply createDesired_keeps_objects.
    + destruct ((fetch r op m (cluster w)).1) as [e|] eqn:Hf.
      * rewrite (runEnsure_fetch_error _ _ _ _ _ _ _ _ op m w e Hf Hn).
        simpl. by rewrite Hg.
      * rewrite runEnsure_present_unvalidated by done. simpl. by rewrite Hg.
  - intros c2u ail m newNS w.
    unfold_helpers. simpl.
    pose proof (get_keeps_objects Secret
                  {| nnName := ImagePullSecret (Spec m);
                     nnNamespace := Namespace (hubMeta m) |}
                  emptySecret (cluster w)) as Hs.
    destruct (Fake.get Secret _ emptySecret (cluster w)) as [[err src] c1].
    simpl in Hs |- *. destruct err as [e|]; simpl; [by rewrite Hs|].
    destruct (c2u _) as [u [e|]]; simpl; [by rewrite Hs|].
    match goal with
    | |- context [Fake.get ?T ?k ?o ?c] =>
        pose proof (get_keeps_objects T k o c) as Ht;
        destruct (Fake.get T k o c) as [[err obj] c2]
    end.
    simpl in Ht |- *.
    destruct (notNil err && IsNotFound err); simpl; [|by rewrite Ht, Hs].
    pose proof (create_keeps_objects Unstructured obj c2) as Hc.
    destruct (Fake.create Unstructured obj c2) as [cerr c3].
    simpl in Hc |- *. rewrite <- Hs, <- Ht.
    destruct cerr; exact Hc.
Qed.

(** X12. On a cluster with no fault pending that holds the pull secret of
    the owner, when the converted and labelled copy carries the target
    namespace and the target namespace has no object under the copy's kind
    and name: the first [copyPullSecret] creates the copy and the second,
    finding it, writes nothing. *)
Theorem copyPullSecret_twice c2u ail m newNS objs cs src u :
  objs !! ("Secret", Namespace (hubMeta m), ImagePullSecret (Spec m))
    = Some (ObjSecret src) →
  c2u (SetUID "" (SetResourceVersion "" (SetSelfLink "" (SetNamespace newNS src))))
    = (u, None) →
  GetNamespace (ail u (Name (hubMeta m)) (Namespace (hubMeta m))) = newNS →
  objs !! (GetKind (ail u (Name (hubMeta m)) (Namespace (hubMeta m))), newNS,
           GetName (ail u (Name (hubMeta m)) (Namespace (hubMeta m)))) = None →
  createdThenNoOp (copyPullSecret c2u ail r m newNS)
                  {| cluster := state objs []; calls := cs |}.
Proof.
  intros Hs Hc Hns Ht.
  set (target := ail u (Name (hubMeta m)) (Namespace (hubMeta m))) in *.
  set (key := (GetKind target, newNS, GetName target)) in *.
  set (reads := [CallGet "Secret"
                   {| nnName := ImagePullSecret (Spec m);
                      nnNamespace := Namespace (hubMeta m) |};
                 CallGet (GetKind target)
                   {| nnName := GetName target; nnNamespace := newNS |}]).
  assert (Hne : ("Secret", Namespace (hubMeta m), ImagePullSecret (Spec m)) ≠ key)
    by (intros Heq; rewrite Heq in Hs; congruence).
  assert (Hkey : Fake.keyOf (ObjUnstructured target) = key)
    by (unfold Fake.keyOf, key; simpl; unfold GetNamespace in Hns;
        rewrite Hns; reflexivity).
  assert (Hinto : (objectKind (toObject target), newNS, GetName target) = key)
    by reflexivity.
  assert (G1 : ∀ objs', objs' !! ("Secret", Namespace (hubMeta m),
                                  ImagePullSecret (Spec m)) = Some (ObjSecret src) →
               Get (client r)
                 {| nnName := ImagePullSecret (Spec m);
                    nnNamespace := Namespace (hubMeta m) |}
                 emptySecret (state objs' [])
               = ((None, src), state objs' [])).
  { intros objs' Hl. simpl. unfold Fake.get. simpl. rewrite Hl. reflexivity. }
  assert (G2 : ∀ objs',
               Get (client r) {| nnName := GetName target; nnNamespace := newNS |}
                 target (state objs' [])
               = (match objs' !! key with
                  | None => (Some (Fake.notFound key), target)
                  | Some o => match ofObject o with
                              | Some t => (None, t)
                              | None => (Some Fake.undecodable, target)
                              end
                  end, state objs' [])).
  { intros objs'.
    cbv [Get client Fake.fakeClient Fake.get Fake.nextFault Fake.faults
         Fake.objects nnNamespace nnName].
    rewrite Hinto.
    destruct (objs' !! key) as [o|]; [destruct (ofObject o)|]; reflexivity. }
  assert (E1 : copyPullSecret c2u ail r m newNS
                 {| cluster := state objs []; calls := cs |}
               = ((None, None),
                  {| cluster := state (<[key := ObjUnstructured target]> objs) [];
                     calls := cs ++ reads ++ [CallCreate (ObjUnstructured target)] |})).
  { pose proof (G2 objs) as Hg. rewrite Ht in Hg.
    rewrite (copyPullSecret_target c2u ail r m newNS
               {| cluster := state objs []; calls := cs |} src _ _ _ _ _
               (G1 objs Hs) Hc Hg).
    cbv zeta. change (IsNotFound (Some (Fake.notFound key))) with true. cbv iota.
    assert (Hcr : Create (client r) target (state objs [])
                  = (None, state (<[key := ObjUnstructured target]> objs) [])).
    { cbv [Create client Fake.fakeClient Fake.create Fake.nextFault
           Fake.faults Fake.objects].
      change (toObject target) with (ObjUnstructured target).
      rewrite Hkey, Ht. reflexivity. }
    rewrite Hcr. reflexivity. }
  assert (E2 : copyPullSecret c2u ail r m newNS
                 {| cluster := state (<[key := ObjUnstructured target]> objs) [];
                    calls := cs ++ reads ++ [CallCreate (ObjUnstructured target)] |}
               = ((None, None),
                  {| cluster := state (<[key := ObjUnstructured target]> objs) [];
                     calls := (cs ++ reads ++ [CallCreate (ObjUnstructured target)])
                              ++ reads |})).
  { pose proof (G2 (<[key := ObjUnstructured target]> objs)) as Hg.
    rewrite lookup_insert_eq in Hg. simpl in Hg.
    assert (Hs' : <[key := ObjUnstructured target]> objs
                    !! ("Secret", Namespace (hubMeta m), ImagePullSecret (Spec m))
                  = Some (ObjSecret src))
      by (rewrite lookup_insert_ne by (intros Heq; apply Hne; symmetry; exact Heq);
          exact Hs).
    rewrite (copyPullSecret_target c2u ail r m newNS
               {| cluster := state (<[key := ObjUnstructured target]> objs) [];
                  calls := cs ++ reads ++ [CallCreate (ObjUnstructured target)] |}
               src _ _ _ _ _ (G1 _ Hs') Hc Hg).
    reflexivity. }
  unfold createdThenNoOp, outcomeOf.
  rewrite (issued_app _ _ _ _ _ E1), E1. cbn [snd].
  rewrite (issued_app _ _ _ _ _ E2), E2. split; reflexivity.
Qed.

End ClusterBehaviour.

(* ===================================================================== *)
(** ** Further behaviour of the readiness gate and of the file readers *)
(* ===================================================================== *)

Section ApiReadyBehaviour.
Context {RestConfig DiscoveryClient : Type}.
Variable config_GetConfig : option RestConfig * option error.
Variable discovery_NewDiscoveryClientForConfig :
  option RestConfig → option DiscoveryClient * option error.
Variable discovery_ServerSupportsVersion :
  option DiscoveryClient → GroupVersion → option error.

Local Abbreviation ready :=
  (apiReady config_GetConfig discovery_NewDiscoveryClientForConfig
            discovery_ServerSupportsVersion).

(** X13. [apiReady] answers ready, nil and nil, exactly when all three
    steps succeed: the rest configuration is got, the discovery client is
    made, and the version check returns no error. *)
Theorem apiReady_ready_iff gv :
  ready gv = (None, None)
  ↔ config_GetConfig.2 = None
    ∧ (discovery_NewDiscoveryClientForConfig config_GetConfig.1).2 = None
    ∧ discovery_ServerSupportsVersion
        (discovery_NewDiscoveryClientForConfig config_GetConfig.1).1 gv = None.
Proof.
  rewrite apiReady_cases. cbv zeta.
  destruct (config_GetConfig.2); [split; [discriminate|intros [? _]; discriminate]|].
  destruct ((discovery_NewDiscoveryClientForConfig config_GetConfig.1).2);
    [split; [discriminate|intros (_ & ? & _); discriminate]|].
  destruct (discovery_ServerSupportsVersion _ gv);
    [split; [discriminate|intros (_ & _ & ?); discriminate]|].
  split; done.
Qed.

End ApiReadyBehaviour.

Section FilesBehaviour.
Variable os_Stat : string → option FileInfo * option error.
Variable ioutil_ReadFile : string → string * option error.
Variable os_UserHomeDir : string * option error.
Variable path_Join : list string → string.
Variable filepath_Clean : string → string.
Variable strings_TrimSpace : string → string.

Local Abbreviation exists_ := (fileExists os_Stat).
Local Abbreviation readRaw := (readFileRaw os_Stat ioutil_ReadFile filepath_Clean).
Local Abbreviation readVersion :=
  (ReadComponentVersionFile os_Stat ioutil_ReadFile os_UserHomeDir path_Join
                            filepath_Clean strings_TrimSpace).
Local Abbreviation versionFile home := (path_Join [home; "COMPONENT_VERSION"]).

Lemma fileExists_cases path :
  exists_ path =
    if os_IsNotExist (os_Stat path).2 then Returns false
    else match (os_Stat path).1 with
         | Some i => Returns (negb (fiIsDir i))
         | None => Panics nilDereference
         end.
Proof.
  unfold fileExists. destruct (os_Stat path) as [info err]. simpl.
  destruct (os_IsNotExist err); [reflexivity|]. destruct info; reflexivity.
Qed.

Lemma readFileRaw_cases path :
  readRaw path =
    match exists_ path with
    | Panics msg => Panics msg
    | Returns false =>
        Returns ("", Some (errors_New ("File" +:+ path +:+ "does not exist")))
    | Returns true =>
        match (ioutil_ReadFile (filepath_Clean path)).2 with
        | Some e => Returns ("", Some e)
        | None => Returns ((ioutil_ReadFile (filepath_Clean path)).1, None)
        end
    end.
Proof.
  unfold readFileRaw. destruct (exists_ path) as [[|]|msg]; simpl; try reflexivity.
  destruct (ioutil_ReadFile (filepath_Clean path)) as [data [e|]]; reflexivity.
Qed.

(** X14. [readFileRaw] panics exactly when [os.Stat] hands back no file
    information together with an error that is not a not-exist error (or
    with no error at all); in every other case it returns. *)
Theorem readFileRaw_panics_iff path :
  (∃ msg, readRaw path = Panics msg)
  ↔ (os_Stat path).1 = None ∧ os_IsNotExist (os_Stat path).2 = false.
Proof.
  rewrite readFileRaw_cases, fileExists_cases.
  destruct (os_IsNotExist (os_Stat path).2).
  - split; [intros [msg H]; discriminate H | intros [_ H]; discriminate H].
  - destruct ((os_Stat path).1) as [i|].
    + split; [|intros [H _]; discriminate H].
      intros [msg H]. destruct (negb (fiIsDir i)); simpl in H;
        repeat case_match; discriminate H.
    + split; [done | intros _; by eexists].
Qed.

(** X15. A path that does not exist and a path that is a directory get the
    same answer from [readFileRaw]: no data and the error whose text is
    "File", the path and "does not exist" run together; the file is not
    read. *)
Theorem readFileRaw_missing_or_directory path :
  os_IsNotExist (os_Stat path).2 = true
  ∨ (∃ i, (os_Stat path).1 = Some i ∧ fiIsDir i = true) →
  readRaw path
  = Returns ("", Some (errorString ("File" +:+ path +:+ "does not exist"))).
Proof.
  intros H. rewrite readFileRaw_cases, fileExists_cases.
  destruct (os_IsNotExist (os_Stat path).2) eqn:Hn; [reflexivity|].
  destruct H as [H|(i & Hi & Hd)]; [discriminate H|].
  rewrite Hi, Hd. reflexivity.
Qed.

(** X16. With the home directory known, the version file a regular file and
    its read successful, [ReadComponentVersionFile] returns the contents of
    [COMPONENT_VERSION] under the home directory, read through the cleaned
    path, with the surrounding white space trimmed, and no error. *)
Theorem ReadComponentVersionFile_reads home i err data :
  os_UserHomeDir = (home, None) →
  os_Stat (versionFile home) = (Some i, err) →
  os_IsNotExist err = false →
  fiIsDir i = false →
  ioutil_ReadFile (filepath_Clean (versionFile home)) = (data, None) →
  readVersion = Returns (strings_TrimSpace data, None).
Proof.
  intros Hh Hs Hn Hd Hr. unfold ReadComponentVersionFile. rewrite Hh. simpl.
  rewrite readFileRaw_cases, fileExists_cases, Hs. simpl.
  rewrite Hn, Hd. simpl. rewrite Hr. reflexivity.
Qed.

(** X17. The errors of the home directory lookup and of the read of the
    version file come back from [ReadComponentVersionFile] unchanged, with
    the empty string; when the home directory is not known the file system
    is not consulted at all. *)
Theorem ReadComponentVersionFile_errors_pass_through e :
  (∀ home, os_UserHomeDir = (home, Some e) → readVersion = Returns ("", Some e))
  ∧ (∀ home i err data,
        os_UserHomeDir = (home, None) →
        os_Stat (versionFile home) = (Some i, err) →
        os_IsNotExist err = false →
        fiIsDir i = false →
        ioutil_ReadFile (filepath_Clean (versionFile home)) = (data, Some e) →
        readVersion = Returns ("", Some e)).
Proof.
  split.
  - intros home Hh. unfold ReadComponentVersionFile. rewrite Hh. reflexivity.
  - intros home i err data Hh Hs Hn Hd Hr.
    unfold ReadComponentVersionFile. rewrite Hh. simpl.
    rewrite readFileRaw_cases, fileExists_cases, Hs. simpl.
    rewrite Hn, Hd. simpl. rewrite Hr. reflexivity.
Qed.

(** X18. Whenever [readFileRaw] or [ReadComponentVersionFile] returns an
    error, the data it returns with it is empty. *)
Theorem readers_error_without_data :
  (∀ path s e,
      readFileRaw os_Stat ioutil_ReadFile filepath_Clean path
      = Returns (s, Some e) → s = "")
  ∧ (∀ s e,
      ReadComponentVersionFile os_Stat ioutil_ReadFile os_UserHomeDir path_Join
                               filepath_Clean strings_TrimSpace
      = Returns (s, Some e) → s = "").
Proof.
  assert (Hraw : ∀ path s e, readRaw path = Returns (s, Some e) → s = "").
  { intros path s e. rewrite readFileRaw_cases.
    destruct (exists_ path) as [[|]|msg]; [| |discriminate].
    - destruct ((ioutil_ReadFile (filepath_Clean path)).2);
        intros H; by simplify_eq.
    - intros H; by simplify_eq. }
  split; [exact Hraw|].
  intros s e. unfold ReadComponentVersionFile.
  destruct os_UserHomeDir as [home [eh|]]; simpl; [intros H; by simplify_eq|].
  destruct (readRaw (versionFile home)) as [[data [er|]]|msg]; simpl;
    intros H; by simplify_eq.
Qed.

End FilesBehaviour.

(* ===================================================================== *)
(** ** The further statements at work *)
(* ===================================================================== *)

Section AtWork.
Import Example Scenario.

Local Abbreviation emptyWorld := (Fake.world [] []).
Local Abbreviation cacheSpec := (CacheSpec Fake.reconciler).

Lemma ensure_create_error_returned_witness :
  let w := Fake.world [] [None; Some timeout] in
  (ensure (OpService desiredService) hub w).1 = (Some emptyResult, Some timeout)
  ∧ issued (ensure (OpService desiredService) hub) w
    = [CallGet "Service" (fetchKey (OpService desiredService) hub);
       CallCreate (ObjService desiredService)]
  ∧ Fake.objects (cluster (ensure (OpService desiredService) hub w).2) = ∅.
Proof.
  intros w.
  destruct (ensure_create_error_returned repoName apiServerName controllerName
              webhookName validateDeployment validateDeployment
              validateSubscription Fake.reconciler (OpService desiredService)
              hub w timeout eq_refl I eq_refl) as (H1 & H2 & H3).
  split; [exact H1|]. split; [exact H2|]. unfold ensure. rewrite H3. reflexivity.
Defined.

Lemma ensure_update_error_returned_witness :
  let w := Fake.world [ObjDeployment observedDeployment] [None; Some conflict] in
  (ensure (OpDeployment desiredDeployment) hub w).1
  = (Some emptyResult, Some conflict)
  ∧ outcomeOf (ensure (OpDeployment desiredDeployment) hub) w
    = Some (Failed conflict).
Proof.
  intros w.
  destruct (proj1 (ensure_update_error_returned repoName apiServerName
                     controllerName webhookName validateDeployment
                     validateDeployment validateSubscription Fake.reconciler
                     hub w conflict)
                  desiredDeployment observedDeployment _
                  (validateDeployment hub cacheSpec observedDeployment).1
                  eq_refl eq_refl eq_refl) as [H1 H2].
  split; [exact H1|]. unfold outcomeOf, ensure. rewrite H1, H2. reflexivity.
Defined.

Lemma ensureDeployment_unknown_name_witness :
  let w := Fake.world [ObjDeployment consoleDeployment] [] in
  (ensure (OpDeployment consoleDeployment) hub w).1 = (None, None)
  ∧ calls (ensure (OpDeployment consoleDeployment) hub w).2
    = [CallGet "Deployment" (fetchKey (OpDeployment consoleDeployment) hub)].
Proof.
  intros w.
  assert (E := ensureDeployment_unknown_name repoName apiServerName
                 controllerName webhookName validateDeployment
                 validateDeployment validateSubscription Fake.reconciler
                 consoleDeployment hub w consoleDeployment (cluster w) eq_refl
                 ltac:(discriminate) ltac:(discriminate) ltac:(discriminate)
                 ltac:(discriminate)).
  split; [exact (f_equal fst E) | exact (f_equal (λ x, calls x.2) E)].
Defined.

Lemma copyPullSecret_source_error_returned_witness :
  (copy hub certManagerNamespace emptyWorld).1
  = (Some emptyResult,
     Some (Fake.notFound ("Secret", hubNamespace, "pull-secret")))
  ∧ issued (copy hub certManagerNamespace) emptyWorld
    = [CallGet "Secret" {| nnName := "pull-secret"; nnNamespace := hubNamespace |}].
Proof.
  destruct (copyPullSecret_source_error_returned utils_CoreToUnstructured
              utils_AddInstallerLabel Fake.reconciler hub certManagerNamespace
              emptyWorld _ emptySecret (cluster emptyWorld) eq_refl)
    as (H1 & H2 & _).
  split; [exact H1 | exact H2].
Defined.

Lemma copyPullSecret_conversion_error_returned_witness :
  let w := Fake.world [ObjSecret pullSecret] [] in
  (copyWith brokenConversion hub certManagerNamespace w).1
  = (Some emptyResult, Some (errorString "unrecognized type"))
  ∧ issued (copyWith brokenConversion hub certManagerNamespace) w
    = [CallGet "Secret" {| nnName := "pull-secret"; nnNamespace := hubNamespace |}].
Proof.
  intros w.
  destruct (copyPullSecret_conversion_error_returned brokenConversion
              utils_AddInstallerLabel Fake.reconciler hub certManagerNamespace
              w pullSecret (cluster w) emptyUnstructured _ eq_refl eq_refl)
    as (H1 & H2 & _).
  split; [exact H1 | exact H2].
Defined.

Lemma copyPullSecret_create_error_returned_witness :
  let w := Fake.world [ObjSecret pullSecret] [None; None; Some forbidden] in
  (copy hub certManagerNamespace w).1 = (Some emptyResult, Some forbidden)
  ∧ outcomeOf (copy hub certManagerNamespace) w = Some (Failed forbidden).
Proof.
  intros w.
  destruct (copyPullSecret_create_error_returned utils_CoreToUnstructured
              utils_AddInstallerLabel Fake.reconciler hub certManagerNamespace
              w pullSecret
              {| Fake.objects := Fake.objects (cluster w);
                 Fake.faults := [None; Some forbidden] |}
              _ _ _
              {| Fake.objects := Fake.objects (cluster w);
                 Fake.faults := [Some forbidden] |}
              forbidden eq_refl eq_refl eq_refl eq_refl eq_refl) as [H1 H2].
  split; [exact H1|]. unfold outcomeOf, copy. rewrite H1. reflexivity.
Defined.

Lemma ensure_misaligned_second_call_fails_witness :
  outcomeOf (ensure (OpSecret straySecret) hub) emptyWorld = Some Created
  ∧ outcomeOf (ensure (OpSecret straySecret) hub)
              (ensure (OpSecret straySecret) hub emptyWorld).2
    = Some (Failed (Fake.alreadyExists
                      ("Secret", strayNamespace, "repo-credentials"))).
Proof.
  refine (ensure_misaligned_second_call_fails repoName apiServerName
            controllerName webhookName validateDeployment validateDeployment
            validateSubscription cacheSpec (OpSecret straySecret) hub ∅ []
            _ eq_refl eq_refl I).
  discriminate.
Defined.

Lemma ensure_create_failure_then_retry_witness :
  let w := Fake.world [] [None; Some timeout] in
  outcomeOf (ensure (OpSecret desiredSecret) hub) w = Some (Failed timeout)
  ∧ Fake.objects (cluster (ensure (OpSecret desiredSecret) hub w).2) = ∅
  ∧ outcomeOf (ensure (OpSecret desiredSecret) hub)
              (ensure (OpSecret desiredSecret) hub w).2 = Some Created.
Proof.
  exact (ensure_create_failure_then_retry repoName apiServerName controllerName
           webhookName validateDeployment validateDeployment
           validateSubscription cacheSpec (OpSecret desiredSecret) hub ∅ []
           timeout eq_refl eq_refl I).
Defined.

Lemma existing_objects_kept_witness :
  let w := Fake.world [ObjSecret storedSecret] [] in
  Fake.objects (cluster w)
  ⊆ Fake.objects (cluster (ensure (OpSecret desiredSecret) hub w).2).
Proof.
  intros w.
  exact (proj1 (existing_objects_kept repoName apiServerName controllerName
                  webhookName validateDeployment validateDeployment
                  validateSubscription cacheSpec)
               (OpSecret desiredSecret) hub w I).
Defined.

Lemma copyPullSecret_twice_witness :
  createdThenNoOp (copy hub certManagerNamespace)
                  (Fake.world [ObjSecret pullSecret] []).
Proof.
  exact (copyPullSecret_twice cacheSpec utils_CoreToUnstructured
           utils_AddInstallerLabel hub certManagerNamespace
           (Fake.objects (cluster (Fake.world [ObjSecret pullSecret] []))) []
           pullSecret _ eq_refl eq_refl eq_refl eq_refl).
Defined.

Lemma ensure_no_update_needed_witness :
  let w := Fake.world [ObjUnstructured subscription] [] in
  (ensure (OpSubscription subscription) hub w).1 = (None, None)
  ∧ calls (ensure (OpSubscription subscription) hub w).2
    = [CallGet "Subscription" (fetchKey (OpSubscription subscription) hub)].
Proof.
  intros w.
  assert (E := proj2 (ensure_no_update_needed repoName apiServerName
                        controllerName webhookName validateDeployment
                        validateDeployment validateSubscription Fake.reconciler
                        hub w)
                     subscription subscription (cluster w) subscription
                     eq_refl eq_refl).
  split; [exact (f_equal fst E) | exact (f_equal (λ x, calls x.2) E)].
Defined.

Lemma readFileRaw_missing_or_directory_witness :
  readFileRaw statMissing readVersionFile (λ p, p) versionPath
  = Returns ("", Some (errorString "File/root/COMPONENT_VERSIONdoes not exist"))
  ∧ readFileRaw statDirectory readVersionFile (λ p, p) versionPath
    = Returns ("", Some (errorString "File/root/COMPONENT_VERSIONdoes not exist")).
Proof.
  split.
  - exact (readFileRaw_missing_or_directory statMissing readVersionFile
             (λ p, p) versionPath (or_introl eq_refl)).
  - exact (readFileRaw_missing_or_directory statDirectory readVersionFile
             (λ p, p) versionPath
             (or_intror (ex_intro _ _ (conj eq_refl eq_refl)))).
Defined.

Lemma ReadComponentVersionFile_reads_witness :
  ReadComponentVersionFile statRegular readVersionFile ("/root", None) join
                           (λ p, p) trimSpace
  = Returns ("1.0.0", None).
Proof.
  exact (ReadComponentVersionFile_reads statRegular readVersionFile
           ("/root", None) join (λ p, p) trimSpace "/root" _ None _
           eq_refl eq_refl eq_refl eq_refl eq_refl).
Defined.

Lemma ReadComponentVersionFile_errors_pass_through_witness :
  ReadComponentVersionFile statDenied readVersionFile noHome join (λ p, p)
                           trimSpace
  = Returns ("", Some (errorString "$HOME is not defined"))
  ∧ ReadComponentVersionFile statRegular readFails ("/root", None) join
                             (λ p, p) trimSpace
    = Returns ("", Some (PathError "read" versionPath EIO)).
Proof.
  split.
  - exact (proj1 (ReadComponentVersionFile_errors_pass_through statDenied
                    readVersionFile noHome join (λ p, p) trimSpace _)
                 "" eq_refl).
  - exact (proj2 (ReadComponentVersionFile_errors_pass_through statRegular
                    readFails ("/root", None) join (λ p, p) trimSpace _)
                 "/root" _ None "" eq_refl eq_refl eq_refl eq_refl eq_refl).
Defined.

Lemma readers_error_without_data_witness :
  ∃ s e, readFileRaw statRegular readFails (λ p, p) versionPath
         = Returns (s, Some e) ∧ s = "".
Proof.
  exists "", (PathError "read" versionPath EIO). split; [reflexivity|].
  exact (proj1 (readers_error_without_data statRegular readFails ("/root", None)
                  join (λ p, p) trimSpace)
               versionPath _ _ eq_refl).
Defined.

End AtWork.
